(** * Weather-data art visualizer: a shallow embedding of [weather art.py]

    The program synthesises thirty days of mock weather readings, maps the
    reading of the current animation frame to waveform parameters, renders
    five overlapping waveforms and finally exports the animation.

    Numbers.  Every Python/NumPy float is a dyadic rational, so values are
    modelled in [Q] and arithmetic is exact rational arithmetic: binary64
    rounding, infinities and nan are not modelled.  NumPy's float division by
    zero yields nan/inf instead of raising; [Q]'s division is total
    ([x / 0 == 0]), so every statement about the value of a quotient proves
    or assumes that its divisor is not zero.

    Library code.  [np.sin], [strftime], the colour map and the [.1f] float
    formatter are library functions: they are parameters of the development.
    [np.random] is a global generator: its state is threaded explicitly and
    a state is an arbitrary infinite sequence of standard-normal draws.  *)

From Stdlib Require Import String.
From Stdlib Require Import ZArith QArith Qabs Qround Qminmax Qfield.
From Stdlib Require Import List Bool Lia Lqa.
Import ListNotations.

Open Scope Q_scope.

(** ** Python exceptions and fallible computations *)

(** The exceptions the program can meet.  [OtherException] stands for any
    further instance of class [Exception] (a missing encoder, an I/O error);
    [KeyboardInterrupt] and [SystemExit] derive from [BaseException] only. *)
Inductive exn : Type :=
| ZeroDivisionError
| IndexError
| ValueError
| OtherException (name : string)
| KeyboardInterrupt
| SystemExit.

(** [isinstance(e, Exception)] *)
Definition is_Exception (e : exn) : bool :=
  match e with
  | KeyboardInterrupt | SystemExit => false
  | _ => true
  end.

Inductive result (A : Type) : Type :=
| Ok (a : A)
| Raise (e : exn).

Arguments Ok {A} a.
Arguments Raise {A} e.

Definition rbind {A B} (c : result A) (k : A -> result B) : result B :=
  match c with
  | Ok a => k a
  | Raise e => Raise e
  end.

Declare Scope result_scope.
Delimit Scope result_scope with res.
Notation "x <- c ;; k" := (rbind c (fun x => k))
  (at level 61, c at next level, right associativity) : result_scope.

(** ** Python built-ins *)

(** [a % b] on ints: the result has the sign of the divisor, as [Z.modulo]. *)
Definition py_mod (a b : Z) : result Z :=
  if (b =? 0)%Z then Raise ZeroDivisionError else Ok (a mod b)%Z.

(** [range(a, b)] *)
Definition py_range (a b : Z) : list Z :=
  map (fun k => (a + Z.of_nat k)%Z) (seq 0 (Z.to_nat (b - a))).

(** [int(x)] on a float truncates towards zero. *)
Definition py_int (x : Q) : Z := Z.quot (Qnum x) (Zpos (Qden x)).

(** ** NumPy *)

Module np.

Definition array := list Q.

(** [np.pi] is the binary64 number 3.141592653589793. *)
Definition pi : Q := 884279719003555 # 281474976710656.

(** [np.linspace(start, stop, num)]: [arange(num) * step + start] with
    [step = (stop - start) / (num - 1)]. *)
Definition linspace (start stop : Q) (num : nat) : array :=
  let step := (stop - start) / inject_Z (Z.of_nat num - 1) in
  map (fun k => inject_Z (Z.of_nat k) * step + start) (seq 0 num).

(** Element-wise [a + b] of two one-dimensional arrays; shapes that do not
    broadcast raise [ValueError]. *)
Definition add (a b : array) : result array :=
  match a, b with
  | [x], _ => Ok (map (fun y => x + y) b)
  | _, [y] => Ok (map (fun x => x + y) a)
  | _, _ =>
      if Nat.eqb (length a) (length b)
      then Ok (map (fun p => fst p + snd p) (combine a b))
      else Raise ValueError
  end.

(** In-place [a += b]: the result keeps the shape of [a]. *)
Definition iadd (a b : array) : result array :=
  match b with
  | [y] => Ok (map (fun x => x + y) a)
  | _ =>
      if Nat.eqb (length a) (length b)
      then Ok (map (fun p => fst p + snd p) (combine a b))
      else Raise ValueError
  end.

(** [np.abs] *)
Definition abs (a : array) : array := map Qabs a.

(** The global generator of [np.random]: an infinite sequence of
    standard-normal draws and the number of draws consumed so far. *)
Record RandomState : Type := mkRandomState {
  gauss : nat -> Q;
  drawn : nat
}.

(** [np.random.normal(loc, scale, size)]: [loc + scale * z] for the next
    [size] draws [z]; a negative [scale] raises [ValueError]. *)
Definition normal (loc scale : Q) (size : nat) (rs : RandomState)
  : result array * RandomState :=
  if Qle_bool 0 scale
  then (Ok (map (fun k => loc + scale * gauss rs (drawn rs + k)) (seq 0 size)),
        mkRandomState (gauss rs) (drawn rs + size))
  else (Raise ValueError, rs).

End np.

(** Computations that use the global generator and may raise. *)
Definition M (A : Type) : Type := np.RandomState -> result A * np.RandomState.

Definition ret {A} (a : A) : M A := fun rs => (Ok a, rs).

Definition bind {A B} (c : M A) (k : A -> M B) : M B :=
  fun rs =>
    match c rs with
    | (Ok a, rs') => k a rs'
    | (Raise e, rs') => (Raise e, rs')
    end.

Definition lift {A} (c : result A) : M A := fun rs => (c, rs).

Declare Scope M_scope.
Delimit Scope M_scope with M.
Notation "x <- c ;; k" := (bind c (fun x => k))
  (at level 61, c at next level, right associativity) : M_scope.

(** ** pandas *)

(** One row of the data frame. *)
Record Reading : Type := mkReading {
  date : string;
  temperature : Q;
  humidity : Q;
  wind_speed : Q
}.

(** A data frame with the four columns of the program, kept as its rows. *)
Definition DataFrame := list Reading.

Module pd.

Fixpoint rows (d : list string) (t h w : np.array) : DataFrame :=
  match d, t, h, w with
  | d0 :: d', t0 :: t', h0 :: h', w0 :: w' =>
      mkReading d0 t0 h0 w0 :: rows d' t' h' w'
  | _, _, _, _ => []
  end.

(** [pd.DataFrame({'date': d, 'temperature': t, 'humidity': h,
    'wind_speed': w})]: columns of different lengths raise [ValueError]. *)
Definition DataFrame_of (d : list string) (t h w : np.array) : result DataFrame :=
  if (Nat.eqb (length d) (length t) && Nat.eqb (length t) (length h)
      && Nat.eqb (length h) (length w))%bool
  then Ok (rows d t h w)
  else Raise ValueError.

(** [series.iloc[i]]: negative positions count from the end, positions
    outside the series raise [IndexError]. *)
Definition iloc {A} (s : list A) (i : Z) : result A :=
  let n := Z.of_nat (length s) in
  let j := if (i <? 0)%Z then (i + n)%Z else i in
  if ((0 <=? j)%Z && (j <? n)%Z)%bool
  then match nth_error s (Z.to_nat j) with
       | Some v => Ok v
       | None => Raise IndexError
       end
  else Raise IndexError.

(** [series.min()] and [series.max()].  pandas answers nan on an empty
    series; the program takes them only after [iloc] has succeeded on the
    same column, where the series is not empty. *)
Definition min (s : list Q) : Q :=
  match s with
  | [] => 0
  | x :: r => fold_left Qmin r x
  end.

Definition max (s : list Q) : Q :=
  match s with
  | [] => 0
  | x :: r => fold_left Qmax r x
  end.

End pd.

(** ** The visualizer *)

Section Visualizer.

(** [np.sin] on one float, [datetime.strftime('%Y-%m-%d')] on a day number. *)
Variable sin : Q -> Q.
Variable strftime : Z -> string.

(** *** [generate_sample_data] *)

(** [datetime.now()] is evaluated anew in every iteration of the list
    comprehension: [now i] is the day number it returns in iteration [i],
    and [datetime.now() - timedelta(days=i)] falls on day [now i - i]. *)
Definition generate_sample_data (now : Z -> Z) : M DataFrame :=
  (let dates := map (fun i => (now i - i)%Z) (py_range 0 30) in
   let base_temp :=
     map (fun s => 20 + 5 * s) (map sin (np.linspace 0 (2 * np.pi) 30)) in
   let base_humidity :=
     map (fun s => 60 + 15 * s)
         (map sin (map (fun x => x + 0.5) (np.linspace 0 (2 * np.pi) 30))) in
   let base_wind :=
     map (fun s => 5 + 3 * s)
         (map sin (map (fun x => x + 1) (np.linspace 0 (2 * np.pi) 30))) in
   let date_col := map strftime dates in
   nt <- np.normal 0 1 30 ;;
   temperature_col <- lift (np.add base_temp nt) ;;
   nh <- np.normal 0 3 30 ;;
   humidity_col <- lift (np.add base_humidity nh) ;;
   nw <- np.normal 0 1 30 ;;
   noisy_wind <- lift (np.add base_wind nw) ;;
   let wind_col := np.abs noisy_wind in
   lift (pd.DataFrame_of date_col temperature_col humidity_col wind_col))%M.

(** *** [process_data] *)

Definition process_data (data : DataFrame) (frame : Z) : result (Z * Q * Q * Q) :=
  (idx <- py_mod frame (Z.of_nat (length data)) ;;
   temp <- pd.iloc (map temperature data) idx ;;
   humidity <- pd.iloc (map humidity data) idx ;;
   wind <- pd.iloc (map wind_speed data) idx ;;
   let temp_min := pd.min (map temperature data) in
   let temp_max := pd.max (map temperature data) in
   let frequency := 0.5 + 1.5 * (temp - temp_min) / (temp_max - temp_min) in
   let amplitude := 0.5 + 1.0 * humidity / 100 in
   let complexity := 1 + wind / 5 in
   Ok (idx, frequency, amplitude, complexity))%res.

(** *** [generate_waveform] *)

Fixpoint fold_result {A B} (f : A -> B -> result A) (l : list B) (a : A)
  : result A :=
  match l with
  | [] => Ok a
  | b :: l' => (a' <- f a b ;; fold_result f l' a')%res
  end.

(** The three quantities bound in the body of the harmonic loop. *)
Definition harmonic_amp (amplitude : Q) (i : Z) : Q :=
  amplitude / inject_Z (i * 2).

Definition harmonic_freq (frequency : Q) (i : Z) : Q :=
  frequency * (inject_Z i + 0.5).

Definition phase_shift (line_idx i : Z) : Q :=
  inject_Z line_idx * np.pi / inject_Z (i + 1).

(** The array added to [y] by iteration [i] of the loop. *)
Definition harmonic (frequency amplitude : Q) (line_idx : Z) (x : np.array)
  (i : Z) : np.array :=
  map (fun s => harmonic_amp amplitude i * s)
      (map sin (map (fun xv => harmonic_freq frequency i * xv
                               + phase_shift line_idx i) x)).

Definition generate_waveform (frequency amplitude complexity : Q) (line_idx : Z)
  : M (np.array * np.array) :=
  (let x := np.linspace 0 10 1000 in
   let y :=
     map (fun s => amplitude * s)
         (map sin (map (fun xv => frequency * xv
                                  + inject_Z line_idx * np.pi / 2) x)) in
   y <- lift (fold_result
                (fun y i =>
                   np.iadd y (harmonic frequency amplitude line_idx x i))
                (py_range 1 (py_int complexity + 1)) y) ;;
   noise <- np.normal 0 (0.05 * complexity) (length x) ;;
   y <- lift (np.iadd y noise) ;;
   ret (x, y))%M.

(** *** The drawn objects *)

(** A colour is an RGBA quadruple; a line starts with the colour the axes'
    property cycle gives it. *)
Inductive color : Type :=
| CycleColor
| RGBA (c : Q * Q * Q * Q).

Record Line2D : Type := mkLine2D {
  xdata : np.array;
  ydata : np.array;
  line_color : color;
  line_alpha : Q
}.

(** The two text overlays that [update] rewrites, by the values their
    f-strings interpolate. *)
Inductive Text : Type :=
| EmptyText
| DateText (current_date : string)
| InfoText (temp humidity wind : string).

(** The colour map built in [__init__] and the [:.1f] formatter. *)
Variable cmap : Q -> Q * Q * Q * Q.
Variable format_1f : Q -> string.

Record WeatherDataVisualizer : Type := mkVisualizer {
  data : DataFrame;
  lines : list Line2D;
  date_text : Text;
  info_text : Text
}.

(** *** [setup_visual_elements] and [__init__] *)

Definition setup_visual_elements (self : WeatherDataVisualizer)
  : WeatherDataVisualizer :=
  let lines' :=
    fold_left (fun ls _ => ls ++ [mkLine2D [] [] CycleColor 0.7])
              (py_range 0 5) (lines self) in
  mkVisualizer (data self) lines' EmptyText EmptyText.

Definition init (now : Z -> Z) : M WeatherDataVisualizer :=
  (d <- generate_sample_data now ;;
   ret (setup_visual_elements (mkVisualizer d [] EmptyText EmptyText)))%M.

(** *** [update] *)

(** The body of [for i, line in enumerate(self.lines)]; [n] is
    [len(self.lines)].  An exception abandons the frame. *)
Fixpoint update_lines (d : DataFrame) (idx : Z) (frequency amplitude complexity : Q)
  (n : nat) (i : Z) (ls : list Line2D) : M (list Line2D) :=
  match ls with
  | [] => ret []
  | line :: rest =>
      (xy <- generate_waveform frequency amplitude complexity i ;;
       t <- lift (pd.iloc (map temperature d) idx) ;;
       let norm_temp :=
         (t - pd.min (map temperature d))
         / (pd.max (map temperature d) - pd.min (map temperature d)) in
       let color := cmap norm_temp in
       let line' :=
         mkLine2D (fst xy) (snd xy) (RGBA color)
                  (0.5 + 0.5 * (inject_Z i / inject_Z (Z.of_nat n))) in
       rest' <- update_lines d idx frequency amplitude complexity n (i + 1) rest ;;
       ret (line' :: rest'))%M
  end.

Definition update (self : WeatherDataVisualizer) (frame : Z)
  : M WeatherDataVisualizer :=
  (p <- lift (process_data (data self) frame) ;;
   let '(idx, frequency, amplitude, complexity) := p in
   lines' <- update_lines (data self) idx frequency amplitude complexity
                          (length (lines self)) 0 (lines self) ;;
   current_date <- lift (pd.iloc (map date (data self)) idx) ;;
   temp <- lift (pd.iloc (map temperature (data self)) idx) ;;
   humidity <- lift (pd.iloc (map humidity (data self)) idx) ;;
   wind <- lift (pd.iloc (map wind_speed (data self)) idx) ;;
   ret (mkVisualizer (data self) lines' (DateText current_date)
          (InfoText (format_1f temp) (format_1f humidity) (format_1f wind))))%M.

(** *** [create_animation] *)

Record FuncAnimation : Type := mkFuncAnimation {
  frames : nat;
  interval : Z;
  repeat : bool
}.

Definition create_animation (self : WeatherDataVisualizer) : FuncAnimation :=
  mkFuncAnimation (length (data self) * 2) 300 true.

(** *** [main] *)

(** The two writers [ani.save] is called with. *)
Inductive writer : Type := ffmpeg | pillow.

(** The lines [main] and the methods it calls print. *)
Inductive message : Type :=
| GeneratingData
| CreatingAnimation
| SavingMP4
| SavedMP4
| CannotSaveMP4 (e : exn)
| TryingGIF
| SavedGIF
| CannotSaveGIF (e2 : exn)
| ShowingAnimation.

(** What the process does to the outside world, in order. *)
Inductive event : Type :=
| Makedirs
| Print (m : message)
| Save (w : writer)
| Show.

(** Computations that act on the outside world and may raise: the events so
    far come in, the events including the computation's own go out. *)
Definition IO (A : Type) : Type := list event -> result A * list event.

Definition io_bind {A B} (c : IO A) (k : A -> IO B) : IO B :=
  fun tr =>
    match c tr with
    | (Ok a, tr') => k a tr'
    | (Raise e, tr') => (Raise e, tr')
    end.

Declare Scope IO_scope.
Delimit Scope IO_scope with IO.
Notation "c1 ;; c2" := (io_bind c1 (fun _ => c2))
  (at level 61, right associativity) : IO_scope.

Definition emit (e : event) : IO unit := fun tr => (Ok tt, tr ++ [e]).

Definition raise {A} (e : exn) : IO A := fun tr => (Raise e, tr).

Definition io_ret {A} (a : A) : IO A := fun tr => (Ok a, tr).

(** [try: body  except Exception as e: handler e]: only instances of
    [Exception] are caught. *)
Definition try_except {A} (body : IO A) (handler : exn -> IO A) : IO A :=
  fun tr =>
    match body tr with
    | (Ok a, tr') => (Ok a, tr')
    | (Raise e, tr') =>
        if is_Exception e then handler e tr' else (Raise e, tr')
    end.

(** [ani.save(..., writer=w, ...)]: [encoder w] is the exception the
    encoder raises, if any. *)
Definition ani_save (encoder : writer -> option exn) (w : writer) : IO unit :=
  (emit (Save w) ;;
   match encoder w with
   | None => io_ret tt
   | Some e => raise e
   end)%IO.

Definition main (encoder : writer -> option exn) (now : Z -> Z)
  (rs : np.RandomState) : IO unit :=
  (emit Makedirs ;;
   emit (Print GeneratingData) ;;
   match fst (init now rs) with
   | Raise e => raise e
   | Ok visualizer =>
       emit (Print CreatingAnimation) ;;
       let ani := create_animation visualizer in
       try_except
         (emit (Print SavingMP4) ;;
          ani_save encoder ffmpeg ;;
          emit (Print SavedMP4))
         (fun e =>
            emit (Print (CannotSaveMP4 e)) ;;
            emit (Print TryingGIF) ;;
            try_except
              (ani_save encoder pillow ;;
               emit (Print SavedGIF))
              (fun e2 => emit (Print (CannotSaveGIF e2)))) ;;
       emit (Print ShowingAnimation) ;;
       emit Show
   end)%IO.

(** The number of times an encoder was started. *)
Definition attempts (w : writer) (tr : list event) : nat :=
  length (filter (fun ev => match ev, w with
                            | Save ffmpeg, ffmpeg => true
                            | Save pillow, pillow => true
                            | _, _ => false
                            end) tr).

End Visualizer.

(** ** The generated series in closed form *)

(** Sample [k] of [np.linspace(0, 2*np.pi, 30)]. *)
Definition day_angle (k : nat) : Q :=
  inject_Z (Z.of_nat k) * ((2 * np.pi - 0) / inject_Z (Z.of_nat 30 - 1)) + 0.

(** Row [k] of the data frame generated under clock [now] from generator state
    [rs]: the temperature noise is draw [k], the humidity noise draw
    [30 + k] and the wind noise draw [60 + k] after [rs]. *)
Definition sample_row (sin : Q -> Q) (strftime : Z -> string) (now : Z -> Z)
  (rs : np.RandomState) (k : nat) : Reading :=
  mkReading
    (strftime (now (0 + Z.of_nat k) - (0 + Z.of_nat k))%Z)
    (20 + 5 * sin (day_angle k)
     + (0 + 1 * np.gauss rs (np.drawn rs + k)))
    (60 + 15 * sin (day_angle k + 0.5)
     + (0 + 3 * np.gauss rs (np.drawn rs + 30 + k)))
    (Qabs (5 + 3 * sin (day_angle k + 1)
           + (0 + 1 * np.gauss rs (np.drawn rs + 30 + 30 + k)))).

(** ** The waveform in closed form *)

(** The phase offset of the base waveform of line [line_idx]:
    [line_idx * np.pi/2] in [generate_waveform]. *)
Definition line_offset (line_idx : Z) : Q := inject_Z line_idx * np.pi / 2.

(** The value harmonic [i] contributes at sample point [xv]. *)
Definition harmonic_term (sin : Q -> Q) (frequency amplitude : Q)
  (line_idx i : Z) (xv : Q) : Q :=
  harmonic_amp amplitude i
  * sin (harmonic_freq frequency i * xv + phase_shift line_idx i).

(** The noise-free waveform at [xv] with harmonics [1 .. n]. *)
Definition waveform_value (sin : Q -> Q) (frequency amplitude : Q)
  (line_idx n : Z) (xv : Q) : Q :=
  fold_left (fun acc i => acc + harmonic_term sin frequency amplitude line_idx i xv)
            (py_range 1 (n + 1))
            (amplitude * sin (frequency * xv + line_offset line_idx)).

(** Sample [k] of [np.linspace(0, 10, 1000)]. *)
Definition sample_point (k : nat) : Q :=
  inject_Z (Z.of_nat k) * ((10 - 0) / inject_Z (Z.of_nat 1000 - 1)) + 0.

(** ** The rendered frame *)

(** The normalised temperature [update] computes for the reading at
    position [idx]; [r0] is the default of the positional lookup. *)
Definition norm_temp (d : DataFrame) (idx : Z) (r0 : Reading) : Q :=
  (temperature (nth (Z.to_nat idx) d r0) - pd.min (map temperature d))
  / (pd.max (map temperature d) - pd.min (map temperature d)).

(** A visualizer over a non-empty series with non-negative wind. *)
Definition renderable (v : WeatherDataVisualizer) : Prop :=
  data v <> [] /\ Forall (fun r => 0 <= wind_speed r) (data v).

(** What [main] has done before it starts to save. *)
Definition prologue : list event :=
  [Makedirs; Print GeneratingData; Print CreatingAnimation].

(** ** Concrete inputs, used to instantiate statements *)

(** The degree-five Taylor polynomial of the sine. *)
Definition sin_taylor (x : Q) : Q := x - x * x * x / 6 + x * x * x * x * x / 120.

(** The Taylor polynomial clamped to [[-1, 1]], the range of the sine. *)
Definition sin_clamped (x : Q) : Q := Qmax (- (1)) (Qmin 1 (sin_taylor x)).

(** A clock that reads day 738000 at every call. *)
Definition example_clock (i : Z) : Z := 738000%Z.

(** A generator state whose draws cycle through -3/2, -1, ..., 3/2. *)
Definition example_state : np.RandomState :=
  np.mkRandomState (fun k => (Z.of_nat (k mod 7) - 3) # 2) 0.

(** Three readings with distinct temperatures and non-negative wind. *)
Definition example_data : DataFrame :=
  [ mkReading "2024-01-03" 18 50 0;
    mkReading "2024-01-02" 22 60 5;
    mkReading "2024-01-01" 20 70 (5 # 2) ].

(** A visualizer over [example_data] with the five lines of
    [setup_visual_elements]. *)
Definition example_visualizer : WeatherDataVisualizer :=
  mkVisualizer example_data (List.repeat (mkLine2D [] [] CycleColor 0.7) 5)
               EmptyText EmptyText.

(** An encoder environment in which both writers work, and one in which
    ffmpeg is missing and pillow fails as well. *)
Definition encoders_work (w : writer) : option exn := None.

Definition both_fail (w : writer) : option exn :=
  match w with
  | ffmpeg => Some (OtherException "FileNotFoundError")
  | pillow => Some ValueError
  end.

(** A frame with no reading, and a reading whose wind speed is below -5,
    which the generator never produces but [update] accepts. *)
Definition empty_visualizer : WeatherDataVisualizer :=
  mkVisualizer [] (List.repeat (mkLine2D [] [] CycleColor 0.7) 5)
               EmptyText EmptyText.

Definition backwards_wind : WeatherDataVisualizer :=
  mkVisualizer [mkReading "2024-01-01" 20 60 (- (10))]
               (List.repeat (mkLine2D [] [] CycleColor 0.7) 5)
               EmptyText EmptyText.

(** An encoder environment in which the user interrupts the MP4 export. *)
Definition interrupted (w : writer) : option exn :=
  match w with
  | ffmpeg => Some KeyboardInterrupt
  | pillow => None
  end.

(** * Properties *)

(** ** The definitions on small inputs *)

Example py_int_truncates :
  py_int (7 # 2) = 3%Z /\ py_int (- (7 # 2)) = (-3)%Z
  /\ Qfloor (- (7 # 2)) = (-4)%Z.
Proof. repeat split. Qed.

Example py_mod_follows_divisor :
  py_mod 61 30 = Ok 1%Z /\ py_mod (-1) 30 = Ok 29%Z
  /\ py_mod 5 0 = Raise ZeroDivisionError.
Proof. repeat split. Qed.

Example py_range_harmonics :
  py_range 1 (py_int (5 # 2) + 1) = [1; 2]%Z
  /\ py_range 1 (py_int (1 # 2) + 1) = [].
Proof. split; reflexivity. Qed.

Example iloc_positions :
  pd.iloc [10; 20; 30] 2 = Ok 30 /\ pd.iloc [10; 20; 30] (-1) = Ok 30
  /\ pd.iloc [10; 20; 30] 3 = Raise IndexError.
Proof. repeat split. Qed.

Example add_shapes :
  np.add [1; 2] [10; 20] = Ok [1 + 10; 2 + 20]
  /\ np.add [1; 2] [10; 20; 30] = Raise ValueError.
Proof. split; reflexivity. Qed.

Example process_data_frame_4 :
  process_data example_data 4
  = Ok (1%Z, 0.5 + 1.5 * (22 - 18) / (22 - 18), 0.5 + 1.0 * 60 / 100, 1 + 5 / 5).
Proof. reflexivity. Qed.

Example amplitude_follows_humidity :
  exists (f a c : Q),
    process_data [mkReading "d1" 18 250 0; mkReading "d0" 22 60 5] 0
    = Ok (0%Z, f, a, c)
    /\ a == 3.
Proof. do 3 eexists. split; reflexivity. Qed.

Example process_data_degenerate_divisor :
  pd.max [20; 20] - pd.min [20; 20] == 0.
Proof. reflexivity. Qed.

Example first_harmonic :
  harmonic_amp 1 1 == 1 # 2 /\ harmonic_freq 1 1 == 3 # 2
  /\ phase_shift 1 1 == np.pi / 2 /\ line_offset 1 == np.pi / 2.
Proof. repeat split. Qed.

Example main_when_both_encoders_fail :
  main sin_taylor (fun _ => EmptyString) both_fail example_clock example_state []
  = (Ok tt,
     [Makedirs; Print GeneratingData; Print CreatingAnimation;
      Print SavingMP4; Save ffmpeg;
      Print (CannotSaveMP4 (OtherException "FileNotFoundError"));
      Print TryingGIF; Save pillow; Print (CannotSaveGIF ValueError);
      Print ShowingAnimation; Show]).
Proof. vm_compute. reflexivity. Qed.

(** ** Arrays and series *)

Module npFacts.

Lemma combine_map_same {A B C} (f : A -> B) (g : A -> C) (l : list A) :
  combine (map f l) (map g l) = map (fun a => (f a, g a)) l.
Proof.
  induction l as [|a l IH]; simpl; [reflexivity | now rewrite IH].
Qed.

Lemma add_same_length (a b : np.array) :
  length a = length b ->
  np.add a b = Ok (map (fun p => fst p + snd p) (combine a b)).
Proof.
  intros Hlen. unfold np.add.
  destruct a as [|x [|x' a]]; destruct b as [|y [|y' b]];
    simpl in Hlen; try discriminate; try reflexivity.
  injection Hlen as Hlen. simpl.
  apply Nat.eqb_eq in Hlen. now rewrite Hlen.
Qed.

Lemma iadd_same_length (a b : np.array) :
  length a = length b ->
  np.iadd a b = Ok (map (fun p => fst p + snd p) (combine a b)).
Proof.
  intros Hlen. unfold np.iadd.
  destruct b as [|y [|y' b]].
  - now rewrite Hlen.
  - destruct a as [|x [|x' a]]; simpl in Hlen; try discriminate. reflexivity.
  - apply Nat.eqb_eq in Hlen. now rewrite Hlen.
Qed.

(** Adding two arrays computed point-wise from one array. *)
Lemma add_map_map {A} (f g : A -> Q) (l : list A) :
  np.add (map f l) (map g l) = Ok (map (fun a => f a + g a) l).
Proof.
  rewrite add_same_length by now rewrite !length_map.
  now rewrite combine_map_same, map_map.
Qed.

Lemma iadd_map_map {A} (f g : A -> Q) (l : list A) :
  np.iadd (map f l) (map g l) = Ok (map (fun a => f a + g a) l).
Proof.
  rewrite iadd_same_length by now rewrite !length_map.
  now rewrite combine_map_same, map_map.
Qed.

Lemma linspace_length (start stop : Q) (num : nat) :
  length (np.linspace start stop num) = num.
Proof. unfold np.linspace. now rewrite length_map, length_seq. Qed.

Lemma normal_ok (loc scale : Q) (size : nat) (rs : np.RandomState) :
  0 <= scale ->
  np.normal loc scale size rs =
  (Ok (map (fun k => loc + scale * np.gauss rs (np.drawn rs + k)) (seq 0 size)),
   np.mkRandomState (np.gauss rs) (np.drawn rs + size)).
Proof.
  intros H. unfold np.normal.
  apply Qle_bool_iff in H. now rewrite H.
Qed.

Lemma normal_negative_scale (loc scale : Q) (size : nat) (rs : np.RandomState) :
  scale < 0 -> np.normal loc scale size rs = (Raise ValueError, rs).
Proof.
  intros H. unfold np.normal.
  destruct (Qle_bool 0 scale) eqn:E; [|reflexivity].
  apply Qle_bool_iff in E. lra.
Qed.

End npFacts.

Module pdFacts.

Lemma iloc_in_range {A} (s : list A) (i : Z) (d : A) :
  (0 <= i < Z.of_nat (length s))%Z ->
  pd.iloc s i = Ok (nth (Z.to_nat i) s d).
Proof.
  intros [H0 H1]. unfold pd.iloc.
  destruct (i <? 0)%Z eqn:E; [apply Z.ltb_lt in E; lia|].
  apply Z.leb_le in H0. rewrite H0.
  pose proof H1 as H1'. apply Z.ltb_lt in H1. rewrite H1. simpl.
  rewrite (nth_error_nth' s d) by lia. reflexivity.
Qed.

Lemma iloc_map {A B} (f : A -> B) (s : list A) (i : Z) (d : A) :
  (0 <= i < Z.of_nat (length s))%Z ->
  pd.iloc (map f s) i = Ok (f (nth (Z.to_nat i) s d)).
Proof.
  intros H. rewrite (iloc_in_range _ _ (f d)) by now rewrite length_map.
  now rewrite map_nth.
Qed.

Lemma rows_length (d : list string) (t h w : np.array) :
  length d = length t -> length t = length h -> length h = length w ->
  length (pd.rows d t h w) = length d.
Proof.
  revert t h w. induction d as [|d0 d IH]; intros [|t0 t] [|h0 h] [|w0 w];
    simpl; intros; try discriminate; try reflexivity.
  f_equal. apply IH; congruence.
Qed.

Lemma rows_columns (d : list string) (t h w : np.array) :
  length d = length t -> length t = length h -> length h = length w ->
  map date (pd.rows d t h w) = d
  /\ map temperature (pd.rows d t h w) = t
  /\ map humidity (pd.rows d t h w) = h
  /\ map wind_speed (pd.rows d t h w) = w.
Proof.
  revert t h w. induction d as [|d0 d IH]; intros [|t0 t] [|h0 h] [|w0 w];
    simpl; intros; try discriminate; try (repeat split; reflexivity).
  destruct (IH t h w) as (Hd & Ht & Hh & Hw); try congruence.
  rewrite Hd, Ht, Hh, Hw. repeat split; reflexivity.
Qed.

Lemma DataFrame_of_ok (d : list string) (t h w : np.array) :
  length d = length t -> length t = length h -> length h = length w ->
  pd.DataFrame_of d t h w = Ok (pd.rows d t h w).
Proof.
  intros H1 H2 H3. unfold pd.DataFrame_of.
  apply Nat.eqb_eq in H1, H2, H3. now rewrite H1, H2, H3.
Qed.

Lemma Qmin_cases (a b : Q) : Qmin a b = a \/ Qmin a b = b.
Proof.
  unfold Qmin, GenericMinMax.gmin. destruct (a ?= b); auto.
Qed.

Lemma Qmax_cases (a b : Q) : Qmax a b = a \/ Qmax a b = b.
Proof.
  unfold Qmax, GenericMinMax.gmax. destruct (a ?= b); auto.
Qed.

Lemma fold_min_spec (r : list Q) (x : Q) :
  In (fold_left Qmin r x) (x :: r)
  /\ Forall (fun y => fold_left Qmin r x <= y) (x :: r).
Proof.
  revert x. induction r as [|y r IH]; intros x; simpl.
  - split; [now left | constructor; [apply Qle_refl | constructor]].
  - destruct (IH (Qmin x y)) as [Hin Hall].
    inversion Hall as [|? ? Hhd Htl]; subst.
    split.
    + destruct Hin as [Hin | Hin]; [|now right; right].
      rewrite <- Hin. destruct (Qmin_cases x y) as [E | E]; rewrite E; auto.
    + constructor; [|constructor; [|exact Htl]].
      * eapply Qle_trans; [exact Hhd | apply Q.le_min_l].
      * eapply Qle_trans; [exact Hhd | apply Q.le_min_r].
Qed.

Lemma fold_max_spec (r : list Q) (x : Q) :
  In (fold_left Qmax r x) (x :: r)
  /\ Forall (fun y => y <= fold_left Qmax r x) (x :: r).
Proof.
  revert x. induction r as [|y r IH]; intros x; simpl.
  - split; [now left | constructor; [apply Qle_refl | constructor]].
  - destruct (IH (Qmax x y)) as [Hin Hall].
    inversion Hall as [|? ? Hhd Htl]; subst.
    split.
    + destruct Hin as [Hin | Hin]; [|now right; right].
      rewrite <- Hin. destruct (Qmax_cases x y) as [E | E]; rewrite E; auto.
    + constructor; [|constructor; [|exact Htl]].
      * eapply Qle_trans; [apply Q.le_max_l | exact Hhd].
      * eapply Qle_trans; [apply Q.le_max_r | exact Hhd].
Qed.

(** The minimum of a non-empty series is one of its values and a lower
    bound of all of them; dually for the maximum. *)
Lemma min_spec (s : list Q) :
  s <> [] -> In (pd.min s) s /\ Forall (fun y => pd.min s <= y) s.
Proof.
  destruct s as [|x r]; [congruence | intros _; apply fold_min_spec].
Qed.

Lemma max_spec (s : list Q) :
  s <> [] -> In (pd.max s) s /\ Forall (fun y => y <= pd.max s) s.
Proof.
  destruct s as [|x r]; [congruence | intros _; apply fold_max_spec].
Qed.

Lemma min_le_max (s : list Q) : s <> [] -> pd.min s <= pd.max s.
Proof.
  intros H. destruct (min_spec s H) as [Hin _].
  destruct (max_spec s H) as [_ Hall].
  rewrite Forall_forall in Hall. now apply Hall.
Qed.

End pdFacts.

(** ** [generate_sample_data] *)

Module Generator.

Lemma rows_map {A} (f : A -> string) (g h w : A -> Q) (l : list A) :
  pd.rows (map f l) (map g l) (map h l) (map w l)
  = map (fun a => mkReading (f a) (g a) (h a) (w a)) l.
Proof.
  induction l as [|a l IH]; simpl; [reflexivity | now rewrite IH].
Qed.

(** The generator never raises: it returns the thirty rows [sample_row]
    and has consumed ninety draws. *)
Lemma generate_sample_data_eq (sin : Q -> Q) (strftime : Z -> string)
  (now : Z -> Z) (rs : np.RandomState) :
  generate_sample_data sin strftime now rs
  = (Ok (map (sample_row sin strftime now rs) (seq 0 30)),
     np.mkRandomState (np.gauss rs) (np.drawn rs + 30 + 30 + 30)).
Proof.
  unfold generate_sample_data, bind, lift, np.linspace, py_range, np.abs.
  change (Z.to_nat (30 - 0)) with 30%nat.
  rewrite !map_map.
  do 3 (rewrite npFacts.normal_ok by (unfold Qle; simpl; lia);
        cbv beta iota; cbn [np.gauss np.drawn];
        rewrite npFacts.add_map_map; cbv beta iota).
  rewrite map_map.
  rewrite pdFacts.DataFrame_of_ok by now rewrite !length_map.
  rewrite rows_map. reflexivity.
Qed.

End Generator.

Lemma generated_length (sin : Q -> Q) (strftime : Z -> string) (now : Z -> Z)
  (rs : np.RandomState) :
  length (map (sample_row sin strftime now rs) (seq 0 30)) = 30%nat.
Proof. now rewrite length_map, length_seq. Qed.

(** ** [process_data] *)

Module Mapper.

Lemma process_data_empty (frame : Z) :
  process_data [] frame = Raise ZeroDivisionError.
Proof. reflexivity. Qed.

Lemma mod_length_range (d : DataFrame) (frame : Z) :
  d <> [] ->
  (0 <= frame mod Z.of_nat (length d) < Z.of_nat (length d))%Z.
Proof.
  intros H. apply Z.mod_pos_bound.
  destruct d; [congruence | simpl; lia].
Qed.

(** On a non-empty frame the mapper returns, whatever the frame counter. *)
Lemma process_data_eq (d : DataFrame) (frame : Z) (r0 : Reading) :
  d <> [] ->
  process_data d frame
  = Ok ((frame mod Z.of_nat (length d))%Z,
        0.5 + 1.5 * (temperature (nth (Z.to_nat (frame mod Z.of_nat (length d))) d r0)
                     - pd.min (map temperature d))
              / (pd.max (map temperature d) - pd.min (map temperature d)),
        0.5 + 1.0 * humidity (nth (Z.to_nat (frame mod Z.of_nat (length d))) d r0) / 100,
        1 + wind_speed (nth (Z.to_nat (frame mod Z.of_nat (length d))) d r0) / 5).
Proof.
  intros H. pose proof (mod_length_range d frame H) as Hidx.
  unfold process_data, py_mod.
  destruct (Z.of_nat (length d) =? 0)%Z eqn:E; [apply Z.eqb_eq in E; lia|].
  cbn [rbind].
  rewrite !(pdFacts.iloc_map _ d _ r0) by exact Hidx.
  reflexivity.
Qed.

(** The frequency is affine in the normalised temperature. *)
Lemma frequency_normalised (t lo hi : Q) :
  0.5 + 1.5 * (t - lo) / (hi - lo) == 0.5 + 1.5 * ((t - lo) / (hi - lo)).
Proof. unfold Qdiv. ring. Qed.

(** The mapper reads the three numeric columns only. *)
Lemma process_data_columns (d1 d2 : DataFrame) (frame : Z) :
  map temperature d1 = map temperature d2 ->
  map humidity d1 = map humidity d2 ->
  map wind_speed d1 = map wind_speed d2 ->
  process_data d1 frame = process_data d2 frame.
Proof.
  intros Ht Hh Hw. unfold process_data.
  assert (Hlen : length d1 = length d2).
  { rewrite <- (length_map temperature d1), Ht. apply length_map. }
  now rewrite Ht, Hh, Hw, Hlen.
Qed.

End Mapper.

(** ** The claims on the generator and the mapper *)

(** C1.  For the series the generator returns and every frame counter, the
    frame mapper returns the index [frame mod 30] together with
    frequency [0.5 + 1.5 * (temp - temp_min) / (temp_max - temp_min)],
    amplitude [0.5 + 1.0 * humidity / 100] and complexity [1 + wind / 5],
    where [temp], [humidity] and [wind] are the fields of the reading at that
    index and [temp_min], [temp_max] are the least and greatest temperature
    of the whole thirty-entry series; the frequency is [0.5 + 1.5 *] the
    min-max normalised temperature. *)
Theorem process_data_formulas :
  forall (sin : Q -> Q) (strftime : Z -> string) (now : Z -> Z)
         (rs : np.RandomState) (frame : Z),
  exists (d : DataFrame) (rs' : np.RandomState) (r : Reading)
         (temp_min temp_max : Q),
    generate_sample_data sin strftime now rs = (Ok d, rs')
    /\ length d = 30%nat
    /\ nth_error d (Z.to_nat (frame mod 30)) = Some r
    /\ In temp_min (map temperature d)
    /\ Forall (fun t => temp_min <= t) (map temperature d)
    /\ In temp_max (map temperature d)
    /\ Forall (fun t => t <= temp_max) (map temperature d)
    /\ process_data d frame
       = Ok ((frame mod 30)%Z,
             0.5 + 1.5 * (temperature r - temp_min) / (temp_max - temp_min),
             0.5 + 1.0 * humidity r / 100,
             1 + wind_speed r / 5)
    /\ 0.5 + 1.5 * (temperature r - temp_min) / (temp_max - temp_min)
       == 0.5 + 1.5 * ((temperature r - temp_min) / (temp_max - temp_min)).
Proof.
  intros sin strftime now rs frame.
  set (d := map (sample_row sin strftime now rs) (seq 0 30)).
  assert (Hlen : length d = 30%nat) by apply generated_length.
  assert (Hne : d <> []) by (intros E; rewrite E in Hlen; discriminate).
  assert (Hcol : map temperature d <> []).
  { intros E. apply (f_equal (@length Q)) in E.
    rewrite length_map, Hlen in E. discriminate. }
  pose proof (Mapper.mod_length_range d frame Hne) as Hidx.
  rewrite Hlen in Hidx. change (Z.of_nat 30) with 30%Z in Hidx.
  set (r0 := mkReading EmptyString 0 0 0).
  exists d, (np.mkRandomState (np.gauss rs) (np.drawn rs + 30 + 30 + 30)),
    (nth (Z.to_nat (frame mod 30)) d r0),
    (pd.min (map temperature d)), (pd.max (map temperature d)).
  destruct (pdFacts.min_spec _ Hcol) as [Hmin_in Hmin_le].
  destruct (pdFacts.max_spec _ Hcol) as [Hmax_in Hmax_le].
  split; [apply Generator.generate_sample_data_eq|].
  split; [exact Hlen|].
  split; [apply nth_error_nth'; lia|].
  do 4 (split; [assumption|]).
  split.
  - rewrite (Mapper.process_data_eq d frame r0 Hne), Hlen. reflexivity.
  - apply Mapper.frequency_normalised.
Qed.

(** C2.  The generator always returns exactly thirty readings, and on them,
    for every frame counter (so for every non-negative one), the mapper
    selects the reading at index [frame mod 30], which lies in [[0, 30)]:
    the three selections by position succeed and the mapper returns. *)
Theorem series_length_and_index :
  forall (sin : Q -> Q) (strftime : Z -> string) (now : Z -> Z)
         (rs : np.RandomState),
  exists (d : DataFrame) (rs' : np.RandomState),
    generate_sample_data sin strftime now rs = (Ok d, rs')
    /\ length d = 30%nat
    /\ forall frame : Z,
         py_mod frame (Z.of_nat (length d)) = Ok (frame mod 30)%Z
         /\ (0 <= frame mod 30 < 30)%Z
         /\ (exists r : Reading,
               nth_error d (Z.to_nat (frame mod 30)) = Some r
               /\ pd.iloc (map temperature d) (frame mod 30) = Ok (temperature r)
               /\ pd.iloc (map humidity d) (frame mod 30) = Ok (humidity r)
               /\ pd.iloc (map wind_speed d) (frame mod 30) = Ok (wind_speed r))
         /\ (exists frequency amplitude complexity : Q,
               process_data d frame
               = Ok ((frame mod 30)%Z, frequency, amplitude, complexity)).
Proof.
  intros sin strftime now rs.
  set (d := map (sample_row sin strftime now rs) (seq 0 30)).
  assert (Hlen : length d = 30%nat) by apply generated_length.
  assert (Hne : d <> []) by (intros E; rewrite E in Hlen; discriminate).
  exists d, (np.mkRandomState (np.gauss rs) (np.drawn rs + 30 + 30 + 30)).
  split; [apply Generator.generate_sample_data_eq|].
  split; [exact Hlen|].
  intros frame.
  pose proof (Mapper.mod_length_range d frame Hne) as Hidx.
  set (r0 := mkReading EmptyString 0 0 0).
  rewrite Hlen in *. change (Z.of_nat 30) with 30%Z in *.
  split; [reflexivity|].
  split; [exact Hidx|].
  split.
  - exists (nth (Z.to_nat (frame mod 30)) d r0).
    split; [apply nth_error_nth'; lia|].
    split; [|split]; apply pdFacts.iloc_map; rewrite Hlen; exact Hidx.
  - rewrite (Mapper.process_data_eq d frame r0 Hne), Hlen.
    change (Z.of_nat 30) with 30%Z. eauto.
Qed.

(** C4.  Whatever noise is drawn, the wind-speed column of the generated
    series is the absolute value of the noisy base wind, so every
    wind_speed is at least zero. *)
Theorem wind_speed_nonnegative :
  forall (sin : Q -> Q) (strftime : Z -> string) (now : Z -> Z)
         (rs : np.RandomState),
  exists (d : DataFrame) (rs' : np.RandomState) (noisy_wind : np.array),
    generate_sample_data sin strftime now rs = (Ok d, rs')
    /\ map wind_speed d = np.abs noisy_wind
    /\ Forall (fun r => 0 <= wind_speed r) d.
Proof.
  intros sin strftime now rs.
  exists (map (sample_row sin strftime now rs) (seq 0 30)),
    (np.mkRandomState (np.gauss rs) (np.drawn rs + 30 + 30 + 30)),
    (map (fun k => 5 + 3 * sin (day_angle k + 1)
                   + (0 + 1 * np.gauss rs (np.drawn rs + 30 + 30 + k)))
         (seq 0 30)).
  split; [apply Generator.generate_sample_data_eq|].
  split.
  - unfold np.abs. rewrite !map_map. reflexivity.
  - apply Forall_forall. intros r Hin.
    apply in_map_iff in Hin. destruct Hin as (k & <- & _).
    cbn [sample_row wind_speed]. apply Qabs_nonneg.
Qed.

(** C9.  Two runs that start from the same generator state (the same fixed
    seed), on whatever day and with whatever date formatting, generate
    series on which the mapper returns at frame 0, with identical
    frequency, amplitude and complexity. *)
Theorem same_seed_same_parameters :
  forall (sin : Q -> Q) (strftime1 strftime2 : Z -> string) (now1 now2 : Z -> Z)
         (seed : np.RandomState),
  exists (d1 d2 : DataFrame) (rs1 rs2 : np.RandomState)
         (idx : Z) (frequency amplitude complexity : Q),
    generate_sample_data sin strftime1 now1 seed = (Ok d1, rs1)
    /\ generate_sample_data sin strftime2 now2 seed = (Ok d2, rs2)
    /\ rs1 = rs2
    /\ process_data d1 0 = Ok (idx, frequency, amplitude, complexity)
    /\ process_data d2 0 = Ok (idx, frequency, amplitude, complexity).
Proof.
  intros sin strftime1 strftime2 now1 now2 seed.
  set (d1 := map (sample_row sin strftime1 now1 seed) (seq 0 30)).
  set (d2 := map (sample_row sin strftime2 now2 seed) (seq 0 30)).
  assert (Hne : d1 <> []) by discriminate.
  set (r0 := mkReading EmptyString 0 0 0).
  pose proof (Mapper.process_data_eq d1 0 r0 Hne) as H1.
  eexists d1, d2, _, _, _, _, _, _.
  split; [apply Generator.generate_sample_data_eq|].
  split; [apply Generator.generate_sample_data_eq|].
  split; [reflexivity|].
  split; [exact H1|].
  rewrite <- H1. symmetry. apply Mapper.process_data_columns;
    unfold d1, d2; rewrite !map_map; reflexivity.
Qed.

(** ** [generate_waveform] *)

Module Waveform.

Lemma py_int_floor (c : Q) : 0 <= c -> py_int c = Qfloor c.
Proof.
  destruct c as [n d]. unfold Qle, py_int, Qfloor. simpl. intros H.
  apply Z.quot_div_nonneg; lia.
Qed.

Lemma py_int_nonpos (c : Q) : c <= 0 -> (py_int c <= 0)%Z.
Proof.
  destruct c as [n d]. unfold Qle, py_int. simpl. intros H.
  assert (Hn : (n <= 0)%Z) by lia.
  replace n with (- - n)%Z by lia.
  rewrite Z.quot_opp_l by lia.
  assert (0 <= (- n) ÷ Z.pos d)%Z by (apply Z.quot_pos; lia).
  lia.
Qed.

Lemma Qfloor_negative (c : Q) : c < 0 -> (Qfloor c < 0)%Z.
Proof.
  intros H. pose proof (Qfloor_le c) as Hle.
  assert (Hlt : inject_Z (Qfloor c) < inject_Z 0)
    by (eapply Qle_lt_trans; [exact Hle | exact H]).
  now rewrite <- Zlt_Qlt in Hlt.
Qed.

Lemma Qfloor_ge_1 (c : Q) : 1 <= c -> (1 <= Qfloor c)%Z.
Proof.
  intros H. change 1%Z with (Qfloor 1).
  now apply Qfloor_resp_le.
Qed.

(** The loop [for i in range(1, int(complexity) + 1)] runs over
    [1 .. floor(complexity)], for every complexity. *)
Lemma harmonic_range_floor (c : Q) :
  py_range 1 (py_int c + 1) = py_range 1 (Qfloor c + 1).
Proof.
  destruct (Qlt_le_dec c 0) as [Hneg | Hpos].
  - unfold py_range.
    pose proof (py_int_nonpos c (Qlt_le_weak _ _ Hneg)).
    pose proof (Qfloor_negative c Hneg).
    replace (Z.to_nat (py_int c + 1 - 1)) with 0%nat by lia.
    replace (Z.to_nat (Qfloor c + 1 - 1)) with 0%nat by lia.
    reflexivity.
  - now rewrite py_int_floor.
Qed.

Lemma harmonic_range_length (n : Z) :
  length (py_range 1 (n + 1)) = Z.to_nat n.
Proof.
  unfold py_range. rewrite length_map, length_seq. f_equal. lia.
Qed.

Lemma harmonic_range_in (n i : Z) :
  In i (py_range 1 (n + 1)) <-> (1 <= i <= n)%Z.
Proof.
  unfold py_range. rewrite in_map_iff. split.
  - intros (k & <- & Hk). apply in_seq in Hk. lia.
  - intros H. exists (Z.to_nat (i - 1)). split; [lia|].
    apply in_seq. lia.
Qed.

Lemma fold_result_ext {A B} (f g : A -> B -> result A) (l : list B) (a : A) :
  (forall a b, f a b = g a b) -> fold_result f l a = fold_result g l a.
Proof.
  intros H. revert a. induction l as [|b l IH]; intros a; simpl.
  - reflexivity.
  - rewrite H. destruct (g a b); simpl; auto.
Qed.

(** Adding, one after the other, arrays computed point-wise from [x] to an
    array computed point-wise from [x]. *)
Lemma fold_pointwise {A} (h : Z -> A -> Q) (l : list Z) (g : A -> Q)
  (x : list A) :
  fold_result (fun y i => np.iadd y (map (h i) x)) l (map g x)
  = Ok (map (fun xv => fold_left (fun acc i => acc + h i xv) l (g xv)) x).
Proof.
  revert g. induction l as [|i l IH]; intros g; simpl.
  - reflexivity.
  - rewrite npFacts.iadd_map_map. simpl. apply IH.
Qed.

Lemma harmonic_eq (sin : Q -> Q) (f a : Q) (l : Z) (x : np.array) (i : Z) :
  harmonic sin f a l x i = map (harmonic_term sin f a l i) x.
Proof. unfold harmonic. now rewrite !map_map. Qed.

(** With a non-negative complexity the synthesizer returns: sample [k] of
    the curve is the base sine plus the harmonics [1 .. floor(complexity)]
    at sample point [k], plus noise draw [k] scaled by
    [0.05 * complexity]. *)
Lemma generate_waveform_eq (sin : Q -> Q) (f a c : Q) (l : Z)
  (rs : np.RandomState) :
  0 <= c ->
  generate_waveform sin f a c l rs
  = (Ok (map sample_point (seq 0 1000),
         map (fun k => waveform_value sin f a l (Qfloor c) (sample_point k)
                       + (0 + 0.05 * c * np.gauss rs (np.drawn rs + k)))
             (seq 0 1000)),
     np.mkRandomState (np.gauss rs) (np.drawn rs + 1000)).
Proof.
  intros Hc. unfold generate_waveform, bind, lift, ret.
  rewrite npFacts.linspace_length.
  rewrite harmonic_range_floor.
  unfold np.linspace. fold sample_point.
  rewrite !map_map.
  rewrite (fold_result_ext _
             (fun y i => np.iadd y (map (fun k => harmonic_term sin f a l i (sample_point k))
                                        (seq 0 1000))))
    by (intros; now rewrite harmonic_eq, map_map).
  rewrite (fold_pointwise
             (fun i k => harmonic_term sin f a l i (sample_point k))).
  rewrite npFacts.normal_ok by lra.
  rewrite npFacts.iadd_map_map.
  reflexivity.
Qed.

(** A negative complexity adds no harmonic and then fails in the noise
    generator, whose scale would be negative. *)
Lemma generate_waveform_negative (sin : Q -> Q) (f a c : Q) (l : Z)
  (rs : np.RandomState) :
  c < 0 -> generate_waveform sin f a c l rs = (Raise ValueError, rs).
Proof.
  intros Hc. unfold generate_waveform, bind, lift, ret.
  rewrite harmonic_range_floor.
  pose proof (Qfloor_negative c Hc) as Hfl.
  unfold py_range at 1.
  replace (Z.to_nat (Qfloor c + 1 - 1)) with 0%nat by lia.
  cbn [seq map fold_result].
  rewrite npFacts.normal_negative_scale by lra.
  reflexivity.
Qed.

End Waveform.

(** Wind that is not negative gives a complexity of at least one. *)
Lemma complexity_ge_1 (wind : Q) : 0 <= wind -> 1 <= 1 + wind / 5.
Proof.
  intros H. assert (0 <= wind / 5) by (apply Qle_shift_div_l; lra). lra.
Qed.

(** C5.  For every complexity the harmonic loop runs over
    [i = 1 .. floor(complexity)]; whenever the complexity is not negative
    the synthesizer returns the base sine plus exactly these
    [floor(complexity)] harmonic terms (plus noise); and on readings whose
    wind_speed is not negative the mapper's complexity is at least one, so
    at least one harmonic is added. *)
Theorem harmonic_count_is_floor :
  (forall c : Q,
      py_range 1 (py_int c + 1) = py_range 1 (Qfloor c + 1)
      /\ length (py_range 1 (py_int c + 1)) = Z.to_nat (Qfloor c))
  /\ (forall (sin : Q -> Q) (f a c : Q) (l : Z) (rs : np.RandomState),
        0 <= c ->
        generate_waveform sin f a c l rs
        = (Ok (map sample_point (seq 0 1000),
               map (fun k =>
                      fold_left
                        (fun acc i => acc + harmonic_term sin f a l i (sample_point k))
                        (py_range 1 (Qfloor c + 1))
                        (a * sin (f * sample_point k + line_offset l))
                      + (0 + 0.05 * c * np.gauss rs (np.drawn rs + k)))
                   (seq 0 1000)),
           np.mkRandomState (np.gauss rs) (np.drawn rs + 1000))
        /\ Z.of_nat (length (py_range 1 (py_int c + 1))) = Qfloor c)
  /\ (forall (d : DataFrame) (frame : Z),
        d <> [] ->
        Forall (fun r => 0 <= wind_speed r) d ->
        exists (idx : Z) (f a c : Q),
          process_data d frame = Ok (idx, f, a, c)
          /\ 1 <= c
          /\ (1 <= Qfloor c)%Z
          /\ (1 <= length (py_range 1 (py_int c + 1)))%nat).
Proof.
  split; [|split].
  - intros c. split; [apply Waveform.harmonic_range_floor|].
    rewrite Waveform.harmonic_range_floor.
    apply Waveform.harmonic_range_length.
  - intros sin f a c l rs Hc. split.
    + apply (Waveform.generate_waveform_eq sin f a c l rs Hc).
    + rewrite Waveform.harmonic_range_floor, Waveform.harmonic_range_length.
      apply Z2Nat.id. change 0%Z with (Qfloor 0).
      now apply Qfloor_resp_le.
  - intros d frame Hne Hwind.
    set (r0 := mkReading EmptyString 0 0 0).
    pose proof (Mapper.mod_length_range d frame Hne) as Hidx.
    rewrite (Mapper.process_data_eq d frame r0 Hne).
    do 4 eexists. split; [reflexivity|].
    assert (Hc : 1 <= 1 + wind_speed (nth (Z.to_nat (frame mod Z.of_nat (length d))) d r0) / 5).
    { apply complexity_ge_1.
      rewrite Forall_forall in Hwind. apply Hwind.
      apply nth_In. lia. }
    pose proof (Waveform.Qfloor_ge_1 _ Hc) as Hfl.
    split; [exact Hc|]. split; [exact Hfl|].
    rewrite Waveform.harmonic_range_floor, Waveform.harmonic_range_length.
    lia.
Qed.

Lemma harmonic_count_is_floor_witness :
  0 <= (5 # 2)
  /\ Z.of_nat (length (py_range 1 (py_int (5 # 2) + 1))) = Qfloor (5 # 2)
  /\ example_data <> []
  /\ Forall (fun r => 0 <= wind_speed r) example_data
  /\ exists (idx : Z) (f a c : Q),
       process_data example_data 4 = Ok (idx, f, a, c)
       /\ 1 <= c
       /\ (1 <= Qfloor c)%Z
       /\ (1 <= length (py_range 1 (py_int c + 1)))%nat.
Proof.
  assert (H0 : 0 <= (5 # 2)) by (unfold Qle; simpl; lia).
  assert (H1 : example_data <> []) by discriminate.
  assert (H2 : Forall (fun r => 0 <= wind_speed r) example_data)
    by (repeat constructor; unfold Qle; simpl; lia).
  split; [exact H0|].
  split;
    [exact (proj2 (proj1 (proj2 harmonic_count_is_floor)
                     sin_taylor 1 1 (5 # 2) 0%Z example_state H0))|].
  split; [exact H1|].
  split; [exact H2|].
  exact (proj2 (proj2 harmonic_count_is_floor) example_data 4%Z H1 H2).
Defined.

(** C6 as stated fails: at amplitude 1, frequency 1, line 1 and the first
    harmonic (complexity 1), the harmonic's amplitude is 1/2 and not 1/1,
    its frequency is 3/2 and not 1/1, and its phase shift is pi/2 and not
    [line_offset / 2 = pi/4]. *)
Lemma harmonic_scaling_counterexample :
  In 1%Z (py_range 1 (py_int 1 + 1))
  /\ harmonic_amp 1 1 == 1 # 2
  /\ ~ harmonic_amp 1 1 == 1 / inject_Z 1
  /\ harmonic_freq 1 1 == 3 # 2
  /\ ~ harmonic_freq 1 1 == 1 / inject_Z 1
  /\ phase_shift 1 1 == np.pi / 2
  /\ ~ phase_shift 1 1 == line_offset 1 / inject_Z (1 + 1).
Proof.
  split; [now left|].
  repeat split; try reflexivity; intros H; vm_compute in H; discriminate H.
Qed.

(** C6, amended.  For every harmonic [i] the array added to the curve is
    [harmonic_amp * sin(harmonic_freq * x + phase_shift)] with
    harmonic_amp = amplitude / (2 i), harmonic_freq = frequency * (i + 1/2)
    and phase_shift = line_idx * pi / (i + 1) = 2 * line_offset / (i + 1);
    so for [i >= 1] the amplitude is scaled down (positive amplitudes get
    smaller) and the frequency is scaled up (positive frequencies get
    larger). *)
Theorem harmonic_scaling :
  forall (sin : Q -> Q) (f a : Q) (l i : Z) (x : np.array),
    harmonic sin f a l x i
    = map (fun xv => harmonic_amp a i * sin (harmonic_freq f i * xv + phase_shift l i)) x
    /\ harmonic_amp a i == a / (2 * inject_Z i)
    /\ harmonic_freq f i == f * (inject_Z i + (1 # 2))
    /\ phase_shift l i == inject_Z l * np.pi / (inject_Z i + 1)
    /\ phase_shift l i == 2 * line_offset l / (inject_Z i + 1)
    /\ ((1 <= i)%Z -> 0 < a -> harmonic_amp a i < a)
    /\ ((1 <= i)%Z -> 0 < f -> f < harmonic_freq f i).
Proof.
  intros sin f a l i x.
  assert (Hi2 : inject_Z (i * 2) == 2 * inject_Z i)
    by (rewrite inject_Z_mult; change (inject_Z 2) with 2; ring).
  assert (Hi1 : inject_Z (i + 1) == inject_Z i + 1)
    by (rewrite inject_Z_plus; change (inject_Z 1) with 1; reflexivity).
  split; [apply Waveform.harmonic_eq|].
  split; [unfold harmonic_amp; now rewrite Hi2|].
  split; [unfold harmonic_freq; ring|].
  split; [unfold phase_shift; now rewrite Hi1|].
  split.
  { unfold phase_shift, line_offset. rewrite Hi1.
    assert (H2 : 2 * (inject_Z l * np.pi / 2) == inject_Z l * np.pi) by field.
    now rewrite H2. }
  split.
  - intros Hi Ha. unfold harmonic_amp. rewrite Hi2.
    assert (Hq : 1 <= inject_Z i) by (rewrite Zle_Qle in Hi; exact Hi).
    apply Qlt_shift_div_r; [lra | nra].
  - intros Hi Hf. unfold harmonic_freq.
    assert (Hq : 1 <= inject_Z i) by (rewrite Zle_Qle in Hi; exact Hi).
    nra.
Qed.

Lemma harmonic_scaling_witness :
  (1 <= 2)%Z /\ 0 < 3 /\ harmonic_amp 3 2 < 3 /\ 3 < harmonic_freq 3 2.
Proof.
  assert (Hi : (1 <= 2)%Z) by lia.
  assert (Hp : 0 < 3) by reflexivity.
  split; [exact Hi|]. split; [exact Hp|].
  split.
  - exact (proj1 (proj2 (proj2 (proj2 (proj2 (proj2
             (harmonic_scaling sin_taylor 3 3 0 2 [])))))) Hi Hp).
  - exact (proj2 (proj2 (proj2 (proj2 (proj2 (proj2
             (harmonic_scaling sin_taylor 3 3 0 2 [])))))) Hi Hp).
Defined.

(** ** Ranges of the mapped parameters *)

Module Ranges.

Lemma normalised_range (t lo hi : Q) :
  lo <= t -> t <= hi -> lo < hi ->
  0 <= (t - lo) / (hi - lo) /\ (t - lo) / (hi - lo) <= 1.
Proof.
  intros H1 H2 H3. split.
  - apply Qle_shift_div_l; lra.
  - apply Qle_shift_div_r; lra.
Qed.

(** The selected temperature lies between the minimum and the maximum. *)
Lemma selected_between (d : DataFrame) (k : nat) (r0 : Reading) :
  (k < length d)%nat ->
  pd.min (map temperature d) <= temperature (nth k d r0)
  /\ temperature (nth k d r0) <= pd.max (map temperature d).
Proof.
  intros Hk.
  assert (Hcol : map temperature d <> []).
  { destruct d; [simpl in Hk; lia | discriminate]. }
  destruct (pdFacts.min_spec _ Hcol) as [_ Hmin].
  destruct (pdFacts.max_spec _ Hcol) as [_ Hmax].
  rewrite Forall_forall in Hmin, Hmax.
  assert (Hin : In (temperature (nth k d r0)) (map temperature d))
    by (apply in_map, nth_In, Hk).
  split; [apply Hmin | apply Hmax]; exact Hin.
Qed.

(** The divisor of the normalisation is zero exactly when all temperatures
    of the series are equal. *)
Lemma degenerate_iff (s : list Q) :
  s <> [] ->
  (pd.max s - pd.min s == 0 <-> forall t1 t2, In t1 s -> In t2 s -> t1 == t2).
Proof.
  intros Hne.
  destruct (pdFacts.min_spec _ Hne) as [Hmin_in Hmin].
  destruct (pdFacts.max_spec _ Hne) as [Hmax_in Hmax].
  rewrite Forall_forall in Hmin, Hmax.
  split.
  - intros Heq t1 t2 H1 H2.
    pose proof (Hmin _ H1). pose proof (Hmax _ H1).
    pose proof (Hmin _ H2). pose proof (Hmax _ H2). lra.
  - intros Hall. rewrite (Hall _ _ Hmax_in Hmin_in). ring.
Qed.

End Ranges.

(** ** [update] *)

Module Renderer.

Section Lines.

Variable sin : Q -> Q.
Variable cmap : Q -> Q * Q * Q * Q.
Variable d : DataFrame.
Variable idx : Z.
Variables frequency amplitude complexity : Q.
Variable n : nat.
Variable r0 : Reading.

Hypothesis complexity_nonneg : 0 <= complexity.
Hypothesis idx_in_range : (0 <= idx < Z.of_nat (length d))%Z.

(** The loop over the lines returns; line [k] of the result carries the
    colour of the frame's normalised temperature and the alpha of its
    position [i + k]. *)
Lemma update_lines_eq (ls : list Line2D) :
  forall (i : Z) (rs : np.RandomState),
  exists (ls' : list Line2D) (rs' : np.RandomState),
    update_lines sin cmap d idx frequency amplitude complexity n i ls rs
    = (Ok ls', rs')
    /\ length ls' = length ls
    /\ forall (k : nat) (line : Line2D),
         nth_error ls' k = Some line ->
         line_color line = RGBA (cmap (norm_temp d idx r0))
         /\ line_alpha line
            = 0.5 + 0.5 * (inject_Z (i + Z.of_nat k) / inject_Z (Z.of_nat n)).
Proof.
  induction ls as [|line0 rest IH]; intros i rs.
  - exists [], rs. split; [reflexivity|]. split; [reflexivity|].
    intros [|k] line H; discriminate H.
  - cbn [update_lines]. unfold bind, lift, ret.
    rewrite (Waveform.generate_waveform_eq sin _ _ _ i rs complexity_nonneg).
    rewrite (pdFacts.iloc_map temperature d idx r0 idx_in_range).
    destruct (IH (i + 1)%Z
                 (np.mkRandomState (np.gauss rs) (np.drawn rs + 1000)))
      as (rest' & rs' & Heq & Hlen & Hlines).
    rewrite Heq.
    eexists _, rs'. split; [reflexivity|].
    split; [simpl; now rewrite Hlen|].
    intros [|k] line H; cbn [nth_error] in H.
    + pose proof (f_equal (option_map line_color) H) as Hc.
      pose proof (f_equal (option_map line_alpha) H) as Ha.
      cbn [option_map line_color line_alpha] in Hc, Ha.
      injection Hc as <-. injection Ha as <-.
      split; [reflexivity|].
      now rewrite Z.add_0_r.
    + destruct (Hlines k line H) as [Hc Ha]. split; [exact Hc|].
      rewrite Ha.
      replace (i + 1 + Z.of_nat k)%Z with (i + Z.of_nat (S k))%Z by lia.
      reflexivity.
Qed.

End Lines.

(** On a renderable visualizer every frame is rendered: the data and the
    number of lines are kept, and every line gets the colour of the frame's
    normalised temperature and the alpha of its position. *)
Lemma update_eq (sin : Q -> Q) (cmap : Q -> Q * Q * Q * Q)
  (format_1f : Q -> string) (v : WeatherDataVisualizer) (frame : Z)
  (rs : np.RandomState) (r0 : Reading) :
  renderable v ->
  exists (v' : WeatherDataVisualizer) (rs' : np.RandomState),
    update sin cmap format_1f v frame rs = (Ok v', rs')
    /\ data v' = data v
    /\ length (lines v') = length (lines v)
    /\ forall (k : nat) (line : Line2D),
         nth_error (lines v') k = Some line ->
         line_color line
         = RGBA (cmap (norm_temp (data v) (frame mod Z.of_nat (length (data v))) r0))
         /\ line_alpha line
            = 0.5 + 0.5 * (inject_Z (Z.of_nat k)
                           / inject_Z (Z.of_nat (length (lines v)))).
Proof.
  intros [Hne Hwind].
  pose proof (Mapper.mod_length_range (data v) frame Hne) as Hidx.
  unfold update, bind, lift, ret.
  rewrite (Mapper.process_data_eq (data v) frame r0 Hne).
  assert (Hc : 0 <= 1 + wind_speed
                 (nth (Z.to_nat (frame mod Z.of_nat (length (data v)))) (data v) r0) / 5).
  { assert (Hw : 0 <= wind_speed
                   (nth (Z.to_nat (frame mod Z.of_nat (length (data v)))) (data v) r0)).
    { rewrite Forall_forall in Hwind. apply Hwind, nth_In. lia. }
    pose proof (complexity_ge_1 _ Hw). lra. }
  match goal with
  | |- context [update_lines _ _ _ _ ?f ?a _ _ _ _ _] =>
      destruct (update_lines_eq sin cmap (data v) _ f a _ (length (lines v)) r0
                  Hc Hidx (lines v) 0%Z rs)
        as (ls' & rs' & Heq & Hlen & Hlines)
  end.
  rewrite Heq.
  rewrite !(pdFacts.iloc_map _ (data v) _ r0) by exact Hidx.
  eexists _, rs'. split; [reflexivity|].
  cbn [data lines].
  split; [reflexivity|]. split; [exact Hlen|].
  intros k line H. destruct (Hlines k line H) as [Hcol Ha].
  split; [exact Hcol|]. rewrite Ha. now rewrite Z.add_0_l.
Qed.

Lemma init_eq (sin : Q -> Q) (strftime : Z -> string) (now : Z -> Z)
  (rs : np.RandomState) :
  init sin strftime now rs
  = (Ok (mkVisualizer
           (map (sample_row sin strftime now rs) (seq 0 30))
           (List.repeat (mkLine2D [] [] CycleColor 0.7) 5)
           EmptyText EmptyText),
     np.mkRandomState (np.gauss rs) (np.drawn rs + 30 + 30 + 30)).
Proof.
  unfold init, bind, ret.
  rewrite Generator.generate_sample_data_eq.
  reflexivity.
Qed.

Lemma init_renderable (sin : Q -> Q) (strftime : Z -> string) (now : Z -> Z)
  (rs : np.RandomState) :
  renderable (mkVisualizer
                (map (sample_row sin strftime now rs) (seq 0 30))
                (List.repeat (mkLine2D [] [] CycleColor 0.7) 5)
                EmptyText EmptyText).
Proof.
  split; cbn [data].
  - discriminate.
  - apply Forall_forall. intros r Hin.
    apply in_map_iff in Hin. destruct Hin as (k & <- & _).
    cbn [sample_row wind_speed]. apply Qabs_nonneg.
Qed.

End Renderer.

(** C8.  On a non-empty series whose greatest temperature exceeds its least
    one, for every frame the divisor [temp_max - temp_min] is not zero and
    the normalised temperature [(temp - temp_min) / (temp_max - temp_min)]
    lies in [[0, 1]]; the mapper's frequency is [0.5 + 1.5 *] that value and
    [update] colours every line with the colour map at that value.  On any
    non-empty series the divisor is zero exactly when all temperatures are
    equal. *)
Theorem normalised_temperature_unit_interval :
  (forall (d : DataFrame) (frame : Z),
      d <> [] ->
      pd.min (map temperature d) < pd.max (map temperature d) ->
      exists (r : Reading) (n : Q),
        nth_error d (Z.to_nat (frame mod Z.of_nat (length d))) = Some r
        /\ n = (temperature r - pd.min (map temperature d))
               / (pd.max (map temperature d) - pd.min (map temperature d))
        /\ ~ pd.max (map temperature d) - pd.min (map temperature d) == 0
        /\ 0 <= n /\ n <= 1
        /\ (exists (idx : Z) (f a c : Q),
              process_data d frame = Ok (idx, f, a, c)
              /\ f == 0.5 + 1.5 * n)
        /\ (forall (sin : Q -> Q) (cmap : Q -> Q * Q * Q * Q)
                   (format_1f : Q -> string) (v : WeatherDataVisualizer)
                   (rs : np.RandomState),
              data v = d ->
              Forall (fun r => 0 <= wind_speed r) d ->
              exists (v' : WeatherDataVisualizer) (rs' : np.RandomState),
                update sin cmap format_1f v frame rs = (Ok v', rs')
                /\ Forall (fun line => line_color line = RGBA (cmap n))
                          (lines v')))
  /\ (forall d : DataFrame,
        d <> [] ->
        (pd.max (map temperature d) - pd.min (map temperature d) == 0
         <-> forall t1 t2 : Q,
               In t1 (map temperature d) -> In t2 (map temperature d) ->
               t1 == t2)).
Proof.
  split.
  - intros d frame Hne Hnd.
    set (r0 := mkReading EmptyString 0 0 0).
    pose proof (Mapper.mod_length_range d frame Hne) as Hidx.
    set (k := Z.to_nat (frame mod Z.of_nat (length d))).
    assert (Hk : (k < length d)%nat) by (unfold k; lia).
    destruct (Ranges.selected_between d k r0 Hk) as [Hlo Hhi].
    destruct (Ranges.normalised_range _ _ _ Hlo Hhi Hnd) as [Hn0 Hn1].
    exists (nth k d r0). eexists.
    split; [apply nth_error_nth'; exact Hk|].
    split; [reflexivity|].
    split; [lra|].
    split; [exact Hn0|]. split; [exact Hn1|].
    split.
    + do 4 eexists.
      split; [apply (Mapper.process_data_eq d frame r0 Hne)|].
      apply Mapper.frequency_normalised.
    + intros sin cmap format_1f v rs Hv Hwind.
      assert (Hr : renderable v) by (rewrite <- Hv in *; split; assumption).
      destruct (Renderer.update_eq sin cmap format_1f v frame rs r0 Hr)
        as (v' & rs' & Heq & _ & _ & Hlines).
      exists v', rs'. split; [exact Heq|].
      apply Forall_forall. intros line Hin.
      apply In_nth_error in Hin. destruct Hin as [j Hj].
      destruct (Hlines j line Hj) as [Hc _].
      rewrite Hc, Hv. reflexivity.
  - intros d Hne. apply Ranges.degenerate_iff.
    destruct d; [congruence | discriminate].
Qed.

Lemma normalised_temperature_unit_interval_witness :
  example_data <> []
  /\ pd.min (map temperature example_data) < pd.max (map temperature example_data)
  /\ exists (r : Reading) (n : Q),
       nth_error example_data (Z.to_nat (4 mod Z.of_nat (length example_data))) = Some r
       /\ n = (temperature r - pd.min (map temperature example_data))
              / (pd.max (map temperature example_data)
                 - pd.min (map temperature example_data))
       /\ 0 <= n /\ n <= 1.
Proof.
  assert (H1 : example_data <> []) by discriminate.
  assert (H2 : pd.min (map temperature example_data)
               < pd.max (map temperature example_data)) by reflexivity.
  split; [exact H1|]. split; [exact H2|].
  destruct (proj1 normalised_temperature_unit_interval example_data 4%Z H1 H2)
    as (r & n & Hr & Hn & _ & Hn0 & Hn1 & _).
  exists r, n. repeat split; assumption.
Defined.

(** C10.  The visualizer built by [__init__] is renderable and has five
    lines; and on every renderable visualizer with five lines, each frame's
    [update] returns, keeps the data and the five lines, gives all five
    lines one and the same colour, and gives line [i] the alpha
    [0.5 + 0.5 * (i / 5)] for [i = 0 .. 4]. *)
Theorem lines_share_colour :
  (forall (sin : Q -> Q) (strftime : Z -> string) (now : Z -> Z)
          (rs : np.RandomState),
      exists (v : WeatherDataVisualizer) (rs' : np.RandomState),
        init sin strftime now rs = (Ok v, rs')
        /\ data v <> []
        /\ Forall (fun r => 0 <= wind_speed r) (data v)
        /\ length (lines v) = 5%nat)
  /\ (forall (sin : Q -> Q) (cmap : Q -> Q * Q * Q * Q)
             (format_1f : Q -> string) (v : WeatherDataVisualizer)
             (frame : Z) (rs : np.RandomState),
        data v <> [] ->
        Forall (fun r => 0 <= wind_speed r) (data v) ->
        length (lines v) = 5%nat ->
        exists (v' : WeatherDataVisualizer) (rs' : np.RandomState)
               (colour : color),
          update sin cmap format_1f v frame rs = (Ok v', rs')
          /\ data v' = data v
          /\ map line_color (lines v')
             = [colour; colour; colour; colour; colour]
          /\ map line_alpha (lines v')
             = [0.5 + 0.5 * (0 / 5); 0.5 + 0.5 * (1 / 5); 0.5 + 0.5 * (2 / 5);
                0.5 + 0.5 * (3 / 5); 0.5 + 0.5 * (4 / 5)]).
Proof.
  split.
  - intros sin strftime now rs.
    eexists _, _. split; [apply Renderer.init_eq|].
    destruct (Renderer.init_renderable sin strftime now rs) as [Hne Hwind].
    split; [exact Hne|]. split; [exact Hwind|]. reflexivity.
  - intros sin cmap format_1f v frame rs Hne Hwind H5.
    set (r0 := mkReading EmptyString 0 0 0).
    destruct (Renderer.update_eq sin cmap format_1f v frame rs r0 (conj Hne Hwind))
      as (v' & rs' & Heq & Hdata & Hlen & Hlines).
    exists v', rs', (RGBA (cmap (norm_temp (data v)
                                  (frame mod Z.of_nat (length (data v))) r0))).
    split; [exact Heq|]. split; [exact Hdata|].
    rewrite H5 in Hlen, Hlines.
    destruct (lines v') as [|l0 [|l1 [|l2 [|l3 [|l4 [|l5 ls]]]]]];
      try discriminate Hlen.
    destruct (Hlines 0%nat l0 eq_refl) as [C0 A0].
    destruct (Hlines 1%nat l1 eq_refl) as [C1 A1].
    destruct (Hlines 2%nat l2 eq_refl) as [C2 A2].
    destruct (Hlines 3%nat l3 eq_refl) as [C3 A3].
    destruct (Hlines 4%nat l4 eq_refl) as [C4 A4].
    cbn [map]. rewrite C0, C1, C2, C3, C4, A0, A1, A2, A3, A4.
    split; reflexivity.
Qed.

Lemma lines_share_colour_witness :
  data example_visualizer <> []
  /\ Forall (fun r => 0 <= wind_speed r) (data example_visualizer)
  /\ length (lines example_visualizer) = 5%nat
  /\ exists (v' : WeatherDataVisualizer) (colour : color),
       fst (update sin_taylor (fun t => (t, t, t, 1)) (fun _ => EmptyString)
                   example_visualizer 7 example_state) = Ok v'
       /\ map line_color (lines v')
          = [colour; colour; colour; colour; colour].
Proof.
  assert (H1 : data example_visualizer <> []) by discriminate.
  assert (H2 : Forall (fun r => 0 <= wind_speed r) (data example_visualizer))
    by (repeat constructor; unfold Qle; simpl; lia).
  assert (H3 : length (lines example_visualizer) = 5%nat) by reflexivity.
  split; [exact H1|]. split; [exact H2|]. split; [exact H3|].
  destruct (proj2 lines_share_colour sin_taylor (fun t => (t, t, t, 1))
              (fun _ => EmptyString) example_visualizer 7%Z example_state
              H1 H2 H3)
    as (v' & rs' & colour & Heq & _ & Hc & _).
  exists v', colour. split; [now rewrite Heq | exact Hc].
Defined.

(** ** [main] and the export fallback *)

Module MainRun.

Section Run.

Variable sin : Q -> Q.
Variable strftime : Z -> string.
Variable encoder : writer -> option exn.
Variable now : Z -> Z.
Variable rs : np.RandomState.

Ltac reduce_run :=
  cbv beta iota zeta delta
    [io_bind try_except ani_save emit raise io_ret fst app prologue].

Ltac run_main :=
  unfold main, io_bind, try_except, ani_save, emit, raise, io_ret;
  rewrite Renderer.init_eq; reduce_run.

(** The primary encoder succeeds. *)
Lemma main_mp4_ok :
  encoder ffmpeg = None ->
  main sin strftime encoder now rs []
  = (Ok tt,
     prologue ++ [Print SavingMP4; Save ffmpeg; Print SavedMP4;
                  Print ShowingAnimation; Show]).
Proof.
  intros H. run_main. rewrite H. reflexivity.
Qed.

(** The primary encoder raises an [Exception], the secondary succeeds. *)
Lemma main_gif_ok (e : exn) :
  encoder ffmpeg = Some e -> is_Exception e = true ->
  encoder pillow = None ->
  main sin strftime encoder now rs []
  = (Ok tt,
     prologue ++ [Print SavingMP4; Save ffmpeg; Print (CannotSaveMP4 e);
                  Print TryingGIF; Save pillow; Print SavedGIF;
                  Print ShowingAnimation; Show]).
Proof.
  intros H He Hp. run_main. rewrite H. reduce_run. rewrite He.
  reduce_run. rewrite Hp. reflexivity.
Qed.

(** Both encoders raise an [Exception]. *)
Lemma main_both_fail (e e2 : exn) :
  encoder ffmpeg = Some e -> is_Exception e = true ->
  encoder pillow = Some e2 -> is_Exception e2 = true ->
  main sin strftime encoder now rs []
  = (Ok tt,
     prologue ++ [Print SavingMP4; Save ffmpeg; Print (CannotSaveMP4 e);
                  Print TryingGIF; Save pillow; Print (CannotSaveGIF e2);
                  Print ShowingAnimation; Show]).
Proof.
  intros H He Hp He2. run_main. rewrite H. reduce_run. rewrite He.
  reduce_run. rewrite Hp. reduce_run. rewrite He2. reflexivity.
Qed.

(** [KeyboardInterrupt] and [SystemExit] are not instances of [Exception]:
    raised by the primary encoder they end [main] at once. *)
Lemma main_mp4_interrupted (e : exn) :
  encoder ffmpeg = Some e -> is_Exception e = false ->
  main sin strftime encoder now rs []
  = (Raise e, prologue ++ [Print SavingMP4; Save ffmpeg]).
Proof.
  intros H He. run_main. rewrite H. reduce_run. rewrite He. reflexivity.
Qed.

(** So is a [KeyboardInterrupt] or [SystemExit] of the secondary encoder. *)
Lemma main_gif_interrupted (e e2 : exn) :
  encoder ffmpeg = Some e -> is_Exception e = true ->
  encoder pillow = Some e2 -> is_Exception e2 = false ->
  main sin strftime encoder now rs []
  = (Raise e2,
     prologue ++ [Print SavingMP4; Save ffmpeg; Print (CannotSaveMP4 e);
                  Print TryingGIF; Save pillow]).
Proof.
  intros H He Hp He2. run_main. rewrite H. reduce_run. rewrite He.
  reduce_run. rewrite Hp. reduce_run. rewrite He2. reflexivity.
Qed.

End Run.

End MainRun.

(** C3.  When the primary encoder raises an exception (an instance of
    [Exception], which is what the handler catches), the secondary encoder
    is started exactly once; when that raises an exception too, the error is
    printed, [main] goes on to print the display notice and show the
    animation, and returns normally.  When the primary encoder succeeds the
    secondary encoder is never started. *)
Theorem export_fallback :
  forall (sin : Q -> Q) (strftime : Z -> string)
         (encoder : writer -> option exn) (now : Z -> Z) (rs : np.RandomState),
    (forall e : exn,
        encoder ffmpeg = Some e -> is_Exception e = true ->
        attempts ffmpeg (snd (main sin strftime encoder now rs [])) = 1%nat
        /\ attempts pillow (snd (main sin strftime encoder now rs [])) = 1%nat
        /\ (forall e2 : exn,
              encoder pillow = Some e2 -> is_Exception e2 = true ->
              main sin strftime encoder now rs []
              = (Ok tt,
                 [Makedirs; Print GeneratingData; Print CreatingAnimation;
                  Print SavingMP4; Save ffmpeg; Print (CannotSaveMP4 e);
                  Print TryingGIF; Save pillow; Print (CannotSaveGIF e2);
                  Print ShowingAnimation; Show])))
    /\ (encoder ffmpeg = None ->
        attempts pillow (snd (main sin strftime encoder now rs [])) = 0%nat
        /\ main sin strftime encoder now rs []
           = (Ok tt,
              [Makedirs; Print GeneratingData; Print CreatingAnimation;
               Print SavingMP4; Save ffmpeg; Print SavedMP4;
               Print ShowingAnimation; Show])).
Proof.
  intros sin strftime encoder now rs. split.
  - intros e H He.
    destruct (encoder pillow) as [e2|] eqn:Hp.
    + destruct (is_Exception e2) eqn:He2.
      * rewrite (MainRun.main_both_fail sin strftime encoder now rs e e2 H He Hp He2).
        split; [reflexivity|]. split; [reflexivity|].
        intros e2' E _. injection E as <-. reflexivity.
      * rewrite (MainRun.main_gif_interrupted sin strftime encoder now rs
                   e e2 H He Hp He2).
        split; [reflexivity|]. split; [reflexivity|].
        intros e2' E He2'. injection E as <-. congruence.
    + rewrite (MainRun.main_gif_ok sin strftime encoder now rs e H He Hp).
      split; [reflexivity|]. split; [reflexivity|].
      intros e2 E. discriminate E.
  - intros H.
    rewrite (MainRun.main_mp4_ok sin strftime encoder now rs H).
    split; reflexivity.
Qed.

Lemma export_fallback_witness :
  both_fail ffmpeg = Some (OtherException "FileNotFoundError")
  /\ is_Exception (OtherException "FileNotFoundError") = true
  /\ attempts pillow
       (snd (main sin_taylor (fun _ => EmptyString) both_fail example_clock example_state []))
     = 1%nat
  /\ encoders_work ffmpeg = None
  /\ attempts pillow
       (snd (main sin_taylor (fun _ => EmptyString)
                  encoders_work example_clock example_state []))
     = 0%nat.
Proof.
  split; [reflexivity|]. split; [reflexivity|].
  split.
  - exact (proj1 (proj2 (proj1 (export_fallback sin_taylor (fun _ => EmptyString)
                                  both_fail example_clock example_state)
                           (OtherException "FileNotFoundError")
                           eq_refl eq_refl))).
  - split; [reflexivity|].
    exact (proj1 (proj2 (export_fallback sin_taylor (fun _ => EmptyString)
                           encoders_work example_clock example_state)
                    eq_refl)).
Defined.

(** * Further properties of the code *)

(** ** The frame mapper *)

(** X1.  The mapper fails on the empty data frame only, and then with
    [ZeroDivisionError] (from [frame % len(self.data)]): no frame counter
    makes a positional lookup fail. *)
Theorem process_data_raises_iff_empty :
  forall (d : DataFrame) (frame : Z) (e : exn),
    process_data d frame = Raise e <-> d = [] /\ e = ZeroDivisionError.
Proof.
  intros d frame e. split.
  - destruct d as [|r d'].
    + rewrite Mapper.process_data_empty. intros H. injection H as <-. auto.
    + rewrite (Mapper.process_data_eq (r :: d') frame r) by discriminate.
      discriminate.
  - intros [-> ->]. apply Mapper.process_data_empty.
Qed.

(** X2.  The animation replays the series cyclically: shifting the frame
    counter by any whole number of series lengths, forwards or backwards,
    changes neither what the mapper returns nor what [update] does. *)
Theorem frame_counter_periodic :
  forall (sin : Q -> Q) (cmap : Q -> Q * Q * Q * Q) (format_1f : Q -> string)
         (v : WeatherDataVisualizer) (frame k : Z) (rs : np.RandomState),
    process_data (data v) (frame + k * Z.of_nat (length (data v))) 
    = process_data (data v) frame
    /\ update sin cmap format_1f v (frame + k * Z.of_nat (length (data v))) rs
       = update sin cmap format_1f v frame rs.
Proof.
  intros sin cmap format_1f v frame k rs.
  assert (H : process_data (data v) (frame + k * Z.of_nat (length (data v)))
              = process_data (data v) frame).
  { unfold process_data, py_mod.
    destruct (Z.of_nat (length (data v)) =? 0)%Z; [reflexivity|].
    now rewrite Z_mod_plus_full. }
  split; [exact H|].
  unfold update. now rewrite H.
Qed.

(** X3.  Within one series with distinct temperatures the frequency grows
    with the temperature of the selected reading: a frame that selects a
    reading at least as warm gets a frequency at least as high. *)
Theorem frequency_monotone_in_temperature :
  forall (d : DataFrame) (frame1 frame2 idx1 idx2 : Z)
         (f1 a1 c1 f2 a2 c2 : Q) (r1 r2 : Reading),
    pd.min (map temperature d) < pd.max (map temperature d) ->
    process_data d frame1 = Ok (idx1, f1, a1, c1) ->
    process_data d frame2 = Ok (idx2, f2, a2, c2) ->
    nth_error d (Z.to_nat idx1) = Some r1 ->
    nth_error d (Z.to_nat idx2) = Some r2 ->
    temperature r1 <= temperature r2 ->
    f1 <= f2.
Proof.
  intros d frame1 frame2 idx1 idx2 f1 a1 c1 f2 a2 c2 r1 r2 Hnd H1 H2 Hr1 Hr2 Ht.
  assert (Hne : d <> []) by (intros ->; discriminate H1).
  rewrite (Mapper.process_data_eq d frame1 r1 Hne) in H1.
  rewrite (Mapper.process_data_eq d frame2 r2 Hne) in H2.
  injection H1 as <- <- _ _. injection H2 as <- <- _ _.
  rewrite (nth_error_nth _ _ r1 Hr1), (nth_error_nth _ _ r2 Hr2).
  rewrite !Mapper.frequency_normalised.
  set (lo := pd.min (map temperature d)) in *.
  set (hi := pd.max (map temperature d)) in *.
  assert (Hdiv : (temperature r1 - lo) / (hi - lo)
                 <= (temperature r2 - lo) / (hi - lo)).
  { apply Qle_shift_div_l; [lra|].
    assert (E : (temperature r1 - lo) / (hi - lo) * (hi - lo)
                == temperature r1 - lo) by (field; lra).
    rewrite E. lra. }
  lra.
Qed.

Lemma frequency_monotone_in_temperature_witness :
  pd.min (map temperature example_data) < pd.max (map temperature example_data)
  /\ (0.5 + 1.5 * (18 - 18) / (22 - 18) <= 0.5 + 1.5 * (20 - 18) / (22 - 18)).
Proof.
  assert (Hnd : pd.min (map temperature example_data)
                < pd.max (map temperature example_data)) by reflexivity.
  split; [exact Hnd|].
  exact (frequency_monotone_in_temperature example_data 0 2 0 2 _ _ _ _ _ _
           (mkReading "2024-01-03" 18 50 0)
           (mkReading "2024-01-01" 20 70 (5 # 2))
           Hnd eq_refl eq_refl eq_refl eq_refl
           (ltac:(unfold Qle; simpl; lia))).
Defined.

(** X4.  On a series with distinct temperatures the extremes of the
    frequency are taken at the extremes of the temperature: some frame of
    one cycle selects a coldest reading and gets frequency 0.5, some frame
    selects a warmest reading, and the frequency of every frame lies
    between the frequencies of these two. *)
Theorem frequency_extremes_at_coldest_and_warmest :
  forall d : DataFrame,
    pd.min (map temperature d) < pd.max (map temperature d) ->
    exists (frame_lo frame_hi : Z) (r_lo r_hi : Reading)
           (a_lo c_lo a_hi c_hi f_lo f_hi : Q),
      (0 <= frame_lo < Z.of_nat (length d))%Z
      /\ (0 <= frame_hi < Z.of_nat (length d))%Z
      /\ nth_error d (Z.to_nat frame_lo) = Some r_lo
      /\ temperature r_lo = pd.min (map temperature d)
      /\ nth_error d (Z.to_nat frame_hi) = Some r_hi
      /\ temperature r_hi = pd.max (map temperature d)
      /\ process_data d frame_lo = Ok (frame_lo, f_lo, a_lo, c_lo)
      /\ f_lo == 0.5
      /\ process_data d frame_hi = Ok (frame_hi, f_hi, a_hi, c_hi)
      /\ forall frame : Z,
           exists (idx : Z) (f a c : Q),
             process_data d frame = Ok (idx, f, a, c)
             /\ f_lo <= f /\ f <= f_hi.
Proof.
  intros d Hnd.
  assert (Hne : d <> []).
  { intros ->. cbn in Hnd. unfold Qlt in Hnd. simpl in Hnd. lia. }
  assert (Hcol : map temperature d <> [])
    by (destruct d; [congruence | discriminate]).
  set (r0 := mkReading EmptyString 0 0 0).
  destruct (pdFacts.min_spec _ Hcol) as [Hmin _].
  destruct (pdFacts.max_spec _ Hcol) as [Hmax _].
  apply (In_nth _ _ (temperature r0)) in Hmin.
  apply (In_nth _ _ (temperature r0)) in Hmax.
  destruct Hmin as (klo & Hklo & Elo). destruct Hmax as (khi & Hkhi & Ehi).
  rewrite length_map in Hklo, Hkhi. rewrite map_nth in Elo, Ehi.
  assert (Mlo : (Z.of_nat klo mod Z.of_nat (length d) = Z.of_nat klo)%Z)
    by (apply Z.mod_small; lia).
  assert (Mhi : (Z.of_nat khi mod Z.of_nat (length d) = Z.of_nat khi)%Z)
    by (apply Z.mod_small; lia).
  pose proof (Mapper.process_data_eq d (Z.of_nat klo) r0 Hne) as Plo.
  pose proof (Mapper.process_data_eq d (Z.of_nat khi) r0 Hne) as Phi.
  rewrite Mlo, Nat2Z.id, Elo in Plo. rewrite Mhi, Nat2Z.id, Ehi in Phi.
  exists (Z.of_nat klo), (Z.of_nat khi), (nth klo d r0), (nth khi d r0).
  do 6 eexists.
  split; [lia|]. split; [lia|].
  rewrite !Nat2Z.id.
  split; [apply nth_error_nth'; exact Hklo|]. split; [exact Elo|].
  split; [apply nth_error_nth'; exact Hkhi|]. split; [exact Ehi|].
  split; [exact Plo|].
  set (lo := pd.min (map temperature d)) in *.
  set (hi := pd.max (map temperature d)) in *.
  assert (E0 : (lo - lo) / (hi - lo) == 0) by (unfold Qdiv; ring).
  assert (E1 : (hi - lo) / (hi - lo) == 1) by (field; lra).
  split; [rewrite Mapper.frequency_normalised, E0; reflexivity|].
  split; [exact Phi|].
  intros frame.
  pose proof (Mapper.mod_length_range d frame Hne) as Hidx.
  set (k := Z.to_nat (frame mod Z.of_nat (length d))).
  assert (Hk : (k < length d)%nat) by (unfold k; lia).
  destruct (Ranges.selected_between d k r0 Hk) as [Hlo Hhi].
  fold lo in Hlo. fold hi in Hhi.
  destruct (Ranges.normalised_range _ _ _ Hlo Hhi Hnd) as [Hn0 Hn1].
  do 4 eexists.
  split; [apply (Mapper.process_data_eq d frame r0 Hne)|].
  fold k lo hi.
  rewrite !Mapper.frequency_normalised, E0, E1. split; lra.
Qed.

Lemma frequency_extremes_at_coldest_and_warmest_witness :
  pd.min (map temperature example_data) < pd.max (map temperature example_data)
  /\ exists (frame_lo : Z) (r_lo : Reading) (f_lo a_lo c_lo : Q),
       nth_error example_data (Z.to_nat frame_lo) = Some r_lo
       /\ temperature r_lo = pd.min (map temperature example_data)
       /\ process_data example_data frame_lo = Ok (frame_lo, f_lo, a_lo, c_lo)
       /\ f_lo == 0.5.
Proof.
  assert (Hnd : pd.min (map temperature example_data)
                < pd.max (map temperature example_data)) by reflexivity.
  split; [exact Hnd|].
  destruct (frequency_extremes_at_coldest_and_warmest example_data Hnd)
    as (flo & fhi & rlo & rhi & alo & clo & ahi & chi & f_lo & f_hi
        & _ & _ & Hr & Ht & _ & _ & Hp & Hf & _).
  exists flo, rlo, f_lo, alo, clo. repeat split; assumption.
Defined.

(** X5.  On a reading with non-negative wind the number of harmonics the
    synthesizer adds for the mapper's complexity is
    [1 + floor(wind_speed / 5)]: one harmonic below 5 m/s, one more for
    every further 5 m/s. *)
Theorem harmonics_from_wind :
  forall (d : DataFrame) (frame idx : Z) (f a c : Q) (r : Reading),
    process_data d frame = Ok (idx, f, a, c) ->
    nth_error d (Z.to_nat idx) = Some r ->
    0 <= wind_speed r ->
    length (py_range 1 (py_int c + 1))
    = S (Z.to_nat (Qfloor (wind_speed r / 5))).
Proof.
  intros d frame idx f a c r H Hr Hw.
  assert (Hne : d <> []) by (intros ->; discriminate H).
  rewrite (Mapper.process_data_eq d frame r Hne) in H.
  injection H as <- _ _ <-.
  rewrite (nth_error_nth _ _ r Hr).
  rewrite Waveform.harmonic_range_floor, Waveform.harmonic_range_length.
  set (w := wind_speed r / 5).
  assert (Hw5 : 0 <= w) by (apply Qle_shift_div_l; lra).
  assert (Hfl0 : (0 <= Qfloor w)%Z)
    by (change 0%Z with (Qfloor 0); now apply Qfloor_resp_le).
  assert (E : Qfloor (1 + w) = (1 + Qfloor w)%Z).
  { pose proof (Qfloor_le w) as L1. pose proof (Qlt_floor w) as L2.
    pose proof (Qfloor_le (1 + w)) as L3. pose proof (Qlt_floor (1 + w)) as L4.
    rewrite inject_Z_plus in L2, L4. change (inject_Z 1) with 1 in L2, L4.
    assert (A : inject_Z (Qfloor (1 + w)) < inject_Z (1 + Qfloor w + 1))
      by (rewrite !inject_Z_plus; change (inject_Z 1) with 1; lra).
    assert (B : inject_Z (1 + Qfloor w) < inject_Z (Qfloor (1 + w) + 1))
      by (rewrite !inject_Z_plus; change (inject_Z 1) with 1; lra).
    rewrite <- Zlt_Qlt in A, B. lia. }
  rewrite E. lia.
Qed.

Lemma harmonics_from_wind_witness :
  0 <= 5
  /\ length (py_range 1 (py_int (1 + 5 / 5) + 1))
     = S (Z.to_nat (Qfloor (5 / 5))).
Proof.
  assert (Hw : 0 <= 5) by (unfold Qle; simpl; lia).
  split; [exact Hw|].
  exact (harmonics_from_wind example_data 4 1 _ _ (1 + 5 / 5)
           (mkReading "2024-01-02" 22 60 5) eq_refl eq_refl Hw).
Defined.

(** ** The generator *)

(** X6.  The generator never raises and consumes exactly ninety draws; row
    [k] is dated [k] days before the clock reading of iteration [k], and
    its temperature, humidity and wind take their noise from the draws
    [k], [30 + k] and [60 + k]: no draw is shared between two fields or
    two rows. *)
Theorem generated_rows :
  forall (sin : Q -> Q) (strftime : Z -> string) (now : Z -> Z)
         (rs : np.RandomState),
  exists d : DataFrame,
    generate_sample_data sin strftime now rs
    = (Ok d, np.mkRandomState (np.gauss rs) (np.drawn rs + 90))
    /\ forall k : nat,
         (k < 30)%nat ->
         nth_error d k
         = Some (mkReading
                   (strftime (now (Z.of_nat k) - Z.of_nat k)%Z)
                   (20 + 5 * sin (day_angle k)
                    + (0 + 1 * np.gauss rs (np.drawn rs + k)))
                   (60 + 15 * sin (day_angle k + 0.5)
                    + (0 + 3 * np.gauss rs (np.drawn rs + (30 + k))))
                   (Qabs (5 + 3 * sin (day_angle k + 1)
                          + (0 + 1 * np.gauss rs (np.drawn rs + (60 + k)))))).
Proof.
  intros sin strftime now rs.
  exists (map (sample_row sin strftime now rs) (seq 0 30)).
  split.
  - rewrite Generator.generate_sample_data_eq.
    replace (np.drawn rs + 90)%nat with (np.drawn rs + 30 + 30 + 30)%nat by lia.
    reflexivity.
  - intros k Hk.
    rewrite nth_error_map, nth_error_seq.
    apply Nat.ltb_lt in Hk. rewrite Hk. cbn [option_map Nat.add].
    unfold sample_row.
    replace (np.drawn rs + 30 + k)%nat with (np.drawn rs + (30 + k))%nat by lia.
    replace (np.drawn rs + 30 + 30 + k)%nat
      with (np.drawn rs + (60 + k))%nat by lia.
    reflexivity.
Qed.

(** ** The waveform synthesizer *)

Module Envelope.

Lemma sin_clamped_bounded (x : Q) : Qabs (sin_clamped x) <= 1.
Proof.
  apply Qabs_Qle_condition. unfold sin_clamped. split.
  - apply Q.le_max_l.
  - apply Q.max_lub; [unfold Qle; simpl; lia | apply Q.le_min_l].
Qed.

Section Bounded.

Variable sin : Q -> Q.
Hypothesis sin_bounded : forall x, Qabs (sin x) <= 1.

Lemma harmonic_term_bound (f a : Q) (l i : Z) (xv : Q) :
  (1 <= i)%Z ->
  Qabs (harmonic_term sin f a l i xv) <= Qabs a / 2.
Proof.
  intros Hi. unfold harmonic_term, harmonic_amp.
  set (t := sin (harmonic_freq f i * xv + phase_shift l i)).
  pose proof (sin_bounded (harmonic_freq f i * xv + phase_shift l i)) as Ht.
  fold t in Ht.
  assert (HD : 2 <= inject_Z (i * 2)).
  { rewrite inject_Z_mult. change (inject_Z 2) with 2.
    rewrite Zle_Qle in Hi. change (inject_Z 1) with 1 in Hi. lra. }
  set (D := inject_Z (i * 2)) in *.
  pose proof (Qabs_nonneg a) as HA. pose proof (Qabs_nonneg t) as HT.
  assert (E : Qabs (a / D * t) == Qabs a / D * Qabs t).
  { rewrite Qabs_Qmult. unfold Qdiv. rewrite Qabs_Qmult, Qabs_Qinv.
    rewrite (Qabs_pos D) by lra. reflexivity. }
  rewrite E.
  assert (HAD : 0 <= Qabs a / D) by (apply Qle_shift_div_l; lra).
  assert (HAD2 : Qabs a / D <= Qabs a / 2).
  { apply Qle_shift_div_r; [lra|].
    assert (E2 : Qabs a / 2 * D == Qabs a * D * (1 # 2)) by field. 
    rewrite E2. nra. }
  nra.
Qed.

Lemma fold_bound (f a : Q) (l : Z) (xv : Q) (idxs : list Z) :
  Forall (fun i => (1 <= i)%Z) idxs ->
  forall acc B : Q,
    Qabs acc <= B ->
    Qabs (fold_left (fun acc i => acc + harmonic_term sin f a l i xv) idxs acc)
    <= B + inject_Z (Z.of_nat (length idxs)) * (Qabs a / 2).
Proof.
  induction 1 as [|i idxs Hi His IH]; intros acc B HB; simpl fold_left.
  - cbn [length]. change (inject_Z (Z.of_nat 0)) with 0. lra.
  - pose proof (harmonic_term_bound f a l i xv Hi) as Ht.
    pose proof (Qabs_triangle acc (harmonic_term sin f a l i xv)) as Htri.
    assert (HB' : Qabs (acc + harmonic_term sin f a l i xv) <= B + Qabs a / 2)
      by lra.
    pose proof (IH _ _ HB') as Hrec.
    cbn [length]. rewrite Nat2Z.inj_succ. unfold Z.succ.
    rewrite inject_Z_plus. change (inject_Z 1) with 1. lra.
Qed.

(** With a sine bounded by one, the noise-free waveform with harmonics
    [1 .. n] stays within [|amplitude| * (1 + n / 2)]. *)
Lemma waveform_value_bound (f a : Q) (l n : Z) (xv : Q) :
  (0 <= n)%Z ->
  Qabs (waveform_value sin f a l n xv) <= Qabs a * (1 + inject_Z n / 2).
Proof.
  intros Hn. unfold waveform_value.
  assert (Hrange : Forall (fun i => (1 <= i)%Z) (py_range 1 (n + 1))).
  { apply Forall_forall. intros i Hin.
    apply Waveform.harmonic_range_in in Hin. lia. }
  assert (Hbase : Qabs (a * sin (f * xv + line_offset l)) <= Qabs a).
  { rewrite Qabs_Qmult.
    pose proof (sin_bounded (f * xv + line_offset l)).
    pose proof (Qabs_nonneg a).
    pose proof (Qabs_nonneg (sin (f * xv + line_offset l))). nra. }
  pose proof (fold_bound f a l xv _ Hrange _ _ Hbase) as H.
  rewrite Waveform.harmonic_range_length, Z2Nat.id in H by exact Hn.
  eapply Qle_trans; [exact H|].
  assert (E : Qabs a * (1 + inject_Z n / 2)
              == Qabs a + inject_Z n * (Qabs a / 2)) by field.
  rewrite E. apply Qle_refl.
Qed.

End Bounded.

End Envelope.

(** X7.  The synthesizer fails exactly on a negative complexity: then it
    raises [ValueError] (from the noise generator's negative scale) without
    consuming a draw; otherwise it returns 1000 x values and 1000 y values
    and has consumed exactly 1000 draws. *)
Theorem generate_waveform_outcome :
  forall (sin : Q -> Q) (f a c : Q) (l : Z) (rs : np.RandomState),
    (c < 0 -> generate_waveform sin f a c l rs = (Raise ValueError, rs))
    /\ (0 <= c ->
        exists x y : np.array,
          generate_waveform sin f a c l rs
          = (Ok (x, y), np.mkRandomState (np.gauss rs) (np.drawn rs + 1000))
          /\ length x = 1000%nat /\ length y = 1000%nat).
Proof.
  intros sin f a c l rs. split.
  - apply Waveform.generate_waveform_negative.
  - intros Hc. do 2 eexists.
    split; [apply (Waveform.generate_waveform_eq sin f a c l rs Hc)|].
    now rewrite !length_map, length_seq.
Qed.

Lemma generate_waveform_outcome_witness :
  - (1) < 0
  /\ generate_waveform sin_taylor 1 1 (- (1)) 0 example_state
     = (Raise ValueError, example_state)
  /\ 0 <= 2
  /\ exists x y : np.array,
       generate_waveform sin_taylor 1 1 2 0 example_state
       = (Ok (x, y),
          np.mkRandomState (np.gauss example_state)
                           (np.drawn example_state + 1000))
       /\ length x = 1000%nat /\ length y = 1000%nat.
Proof.
  assert (H1 : - (1) < 0) by reflexivity.
  assert (H2 : 0 <= 2) by (unfold Qle; simpl; lia).
  split; [exact H1|].
  split; [exact (proj1 (generate_waveform_outcome sin_taylor 1 1 (- (1)) 0
                          example_state) H1)|].
  split; [exact H2|].
  exact (proj2 (generate_waveform_outcome sin_taylor 1 1 2 0 example_state) H2).
Defined.

(** X8.  Whatever the parameters and the generator state, the x values the
    synthesizer returns are the same grid of 1000 equally spaced points
    from 0 to 10: point [j] is [10 j / 999]. *)
Theorem waveform_grid :
  forall (sin : Q -> Q) (f a c : Q) (l : Z) (rs : np.RandomState),
    0 <= c ->
    exists (x y : np.array) (rs' : np.RandomState),
      generate_waveform sin f a c l rs = (Ok (x, y), rs')
      /\ length x = 1000%nat
      /\ (forall (j : nat) (xj : Q),
            nth_error x j = Some xj ->
            xj == 10 * inject_Z (Z.of_nat j) / 999)
      /\ nth_error x 0 = Some (sample_point 0) /\ sample_point 0 == 0
      /\ nth_error x 999 = Some (sample_point 999) /\ sample_point 999 == 10.
Proof.
  intros sin f a c l rs Hc. do 3 eexists.
  split; [apply (Waveform.generate_waveform_eq sin f a c l rs Hc)|].
  split; [now rewrite length_map, length_seq|].
  split.
  - intros j xj H.
    rewrite nth_error_map, nth_error_seq in H.
    destruct (j <? 1000)%nat; [|discriminate H].
    cbn [option_map Nat.add] in H. injection H as <-.
    unfold sample_point.
    change (inject_Z (Z.of_nat 1000 - 1)) with 999. field.
  - split; [reflexivity|]. split; [reflexivity|].
    split; [|reflexivity].
    rewrite nth_error_map, nth_error_seq.
    reflexivity.
Qed.

Lemma waveform_grid_witness :
  0 <= 2
  /\ exists (x y : np.array) (rs' : np.RandomState),
       generate_waveform sin_taylor 1 1 2 0 example_state = (Ok (x, y), rs')
       /\ length x = 1000%nat.
Proof.
  assert (H : 0 <= 2) by (unfold Qle; simpl; lia).
  split; [exact H|].
  destruct (waveform_grid sin_taylor 1 1 2 0 example_state H)
    as (x & y & rs' & Heq & Hlen & _).
  exists x, y, rs'. split; assumption.
Defined.

(** X9.  With a sine bounded by one and a non-negative complexity, every
    sample of the returned curve differs from its noise term by at most
    [|amplitude| * (1 + floor(complexity) / 2)]: the base sine contributes
    at most [|amplitude|] and each harmonic at most half of it. *)
Theorem waveform_envelope :
  forall (sin : Q -> Q) (f a c : Q) (l : Z) (rs : np.RandomState),
    (forall x, Qabs (sin x) <= 1) ->
    0 <= c ->
    exists (x y : np.array) (rs' : np.RandomState),
      generate_waveform sin f a c l rs = (Ok (x, y), rs')
      /\ forall (k : nat) (yk : Q),
           nth_error y k = Some yk ->
           Qabs (yk - (0 + 0.05 * c * np.gauss rs (np.drawn rs + k)))
           <= Qabs a * (1 + inject_Z (Qfloor c) / 2).
Proof.
  intros sin f a c l rs Hsin Hc. do 3 eexists.
  split; [apply (Waveform.generate_waveform_eq sin f a c l rs Hc)|].
  intros k yk H.
  rewrite nth_error_map, nth_error_seq in H.
  destruct (k <? 1000)%nat; [|discriminate H].
  cbn [option_map Nat.add] in H. injection H as <-.
  assert (Hfl : (0 <= Qfloor c)%Z)
    by (change 0%Z with (Qfloor 0); now apply Qfloor_resp_le).
  pose proof (Envelope.waveform_value_bound sin Hsin f a l (Qfloor c)
                (sample_point k) Hfl) as Hb.
  set (w := waveform_value sin f a l (Qfloor c) (sample_point k)) in *.
  set (nz := 0 + 0.05 * c * np.gauss rs (np.drawn rs + k)).
  assert (E : w + nz - nz == w) by ring.
  rewrite E. exact Hb.
Qed.

Lemma waveform_envelope_witness :
  (forall x, Qabs (sin_clamped x) <= 1)
  /\ 0 <= 2
  /\ exists (x y : np.array) (rs' : np.RandomState),
       generate_waveform sin_clamped 1 1 2 0 example_state = (Ok (x, y), rs').
Proof.
  assert (H : 0 <= 2) by (unfold Qle; simpl; lia).
  split; [exact Envelope.sin_clamped_bounded|].
  split; [exact H|].
  destruct (waveform_envelope sin_clamped 1 1 2 0 example_state
              Envelope.sin_clamped_bounded H)
    as (x & y & rs' & Heq & _).
  exists x, y, rs'. exact Heq.
Defined.

(** ** The frame callback *)

Module Frame.

Lemma bind_ext {A B} (c : M A) (k1 k2 : A -> M B) (rs : np.RandomState) :
  (forall a rs', k1 a rs' = k2 a rs') -> bind c k1 rs = bind c k2 rs.
Proof.
  intros H. unfold bind. destruct (c rs) as [[a|e] rs']; [apply H | reflexivity].
Qed.

Lemma some_eq {A} (x y : A) : Some x = Some y -> x = y.
Proof. congruence. Qed.

(** The loop over the lines never reads a line: only their number counts. *)
Lemma update_lines_length_only (sin : Q -> Q) (cmap : Q -> Q * Q * Q * Q)
  (d : DataFrame) (idx : Z) (f a c : Q) (n : nat) (ls1 : list Line2D) :
  forall (ls2 : list Line2D) (i : Z) (rs : np.RandomState),
    length ls1 = length ls2 ->
    update_lines sin cmap d idx f a c n i ls1 rs
    = update_lines sin cmap d idx f a c n i ls2 rs.
Proof.
  induction ls1 as [|l1 ls1 IH]; intros [|l2 ls2] i rs Hlen;
    try discriminate Hlen; [reflexivity|].
  cbn [update_lines].
  apply bind_ext. intros xy rs1.
  apply bind_ext. intros t rs2.
  unfold bind.
  rewrite (IH ls2 (i + 1)%Z rs2) by (injection Hlen; auto).
  reflexivity.
Qed.

Section Lines.

Variable sin : Q -> Q.
Variable cmap : Q -> Q * Q * Q * Q.
Variable d : DataFrame.
Variable idx : Z.
Variables f a c : Q.
Variable n : nat.
Variable r0 : Reading.

Hypothesis complexity_nonneg : 0 <= c.
Hypothesis idx_in_range : (0 <= idx < Z.of_nat (length d))%Z.

(** Line [k] of the loop's result holds the grid and the curve synthesized
    for line index [i + k] from the [k]-th block of 1000 draws. *)
Lemma update_lines_data (ls : list Line2D) :
  forall (i : Z) (rs : np.RandomState),
  exists ls' : list Line2D,
    update_lines sin cmap d idx f a c n i ls rs
    = (Ok ls', np.mkRandomState (np.gauss rs) (np.drawn rs + 1000 * length ls))
    /\ forall (k : nat) (line : Line2D),
         nth_error ls' k = Some line ->
         xdata line = map sample_point (seq 0 1000)
         /\ ydata line
            = map (fun j =>
                     waveform_value sin f a (i + Z.of_nat k) (Qfloor c)
                                    (sample_point j)
                     + (0 + 0.05 * c
                            * np.gauss rs (np.drawn rs + (1000 * k + j))))
                  (seq 0 1000).
Proof.
  induction ls as [|line0 rest IH]; intros i rs.
  - exists []. split.
    + cbn [update_lines length]. unfold ret.
      replace (np.drawn rs + 1000 * 0)%nat with (np.drawn rs) by lia.
      destruct rs; reflexivity.
    + intros [|k] line H; discriminate H.
  - cbn [update_lines]. unfold bind, lift, ret.
    rewrite (Waveform.generate_waveform_eq sin _ _ _ i rs complexity_nonneg).
    rewrite (pdFacts.iloc_map temperature d idx r0 idx_in_range).
    destruct (IH (i + 1)%Z
                 (np.mkRandomState (np.gauss rs) (np.drawn rs + 1000)))
      as (rest' & Heq & Hlines).
    rewrite Heq. cbn [np.gauss np.drawn].
    eexists. split.
    + cbn [length].
      replace (np.drawn rs + 1000 * S (length rest))%nat
        with (np.drawn rs + 1000 + 1000 * length rest)%nat by lia.
      reflexivity.
    + intros [|k] line H; cbn [nth_error] in H.
      * pose proof (f_equal (option_map xdata) H) as Hx.
        pose proof (f_equal (option_map ydata) H) as Hy.
        cbn [option_map xdata ydata fst snd] in Hx, Hy.
        apply some_eq in Hx, Hy. rewrite <- Hx, <- Hy.
        split; [reflexivity|].
        apply map_ext. intros j.
        rewrite Z.add_0_r.
        replace (1000 * 0 + j)%nat with j by lia. reflexivity.
      * destruct (Hlines k line H) as [Hx Hy]. split; [exact Hx|].
        rewrite Hy. cbn [np.gauss np.drawn].
        apply map_ext. intros j.
        replace (i + 1 + Z.of_nat k)%Z with (i + Z.of_nat (S k))%Z by lia.
        replace (np.drawn rs + 1000 + (1000 * k + j))%nat
          with (np.drawn rs + (1000 * S k + j))%nat by lia.
        reflexivity.
Qed.

End Lines.

(** Everything [update] does on a renderable visualizer. *)
Lemma update_full (sin : Q -> Q) (cmap : Q -> Q * Q * Q * Q)
  (format_1f : Q -> string) (v : WeatherDataVisualizer) (frame : Z)
  (rs : np.RandomState) (r0 : Reading) :
  renderable v ->
  exists ls' : list Line2D,
    let r := nth (Z.to_nat (frame mod Z.of_nat (length (data v)))) (data v) r0 in
    update sin cmap format_1f v frame rs
    = (Ok (mkVisualizer (data v) ls' (DateText (date r))
             (InfoText (format_1f (temperature r)) (format_1f (humidity r))
                       (format_1f (wind_speed r)))),
       np.mkRandomState (np.gauss rs) (np.drawn rs + 1000 * length (lines v)))
    /\ forall (k : nat) (line : Line2D),
         nth_error ls' k = Some line ->
         xdata line = map sample_point (seq 0 1000)
         /\ ydata line
            = map (fun j =>
                     waveform_value sin
                       (0.5 + 1.5 * (temperature r - pd.min (map temperature (data v)))
                              / (pd.max (map temperature (data v))
                                 - pd.min (map temperature (data v))))
                       (0.5 + 1.0 * humidity r / 100)
                       (Z.of_nat k) (Qfloor (1 + wind_speed r / 5))
                       (sample_point j)
                     + (0 + 0.05 * (1 + wind_speed r / 5)
                            * np.gauss rs (np.drawn rs + (1000 * k + j))))
                  (seq 0 1000).
Proof.
  intros [Hne Hwind].
  pose proof (Mapper.mod_length_range (data v) frame Hne) as Hidx.
  unfold update, bind, lift, ret.
  rewrite (Mapper.process_data_eq (data v) frame r0 Hne).
  set (r := nth (Z.to_nat (frame mod Z.of_nat (length (data v)))) (data v) r0).
  assert (Hc : 0 <= 1 + wind_speed r / 5).
  { assert (Hw : 0 <= wind_speed r).
    { rewrite Forall_forall in Hwind. apply Hwind, nth_In. lia. }
    pose proof (complexity_ge_1 _ Hw). lra. }
  match goal with
  | |- context [update_lines _ _ _ _ ?f ?a _ _ _ _ _] =>
      destruct (update_lines_data sin cmap (data v) _ f a _ (length (lines v)) r0
                  Hc Hidx (lines v) 0%Z rs)
        as (ls' & Heq & Hlines)
  end.
  rewrite Heq.
  rewrite !(pdFacts.iloc_map _ (data v) _ r0) by exact Hidx.
  exists ls'. cbv zeta. fold r. split; [reflexivity|].
  intros k line H. destruct (Hlines k line H) as [Hx Hy].
  split; [exact Hx|]. rewrite Hy. reflexivity.
Qed.

End Frame.

(** X10.  On a renderable visualizer [update] keeps the number of lines
    and gives line [k] the grid and the curve synthesized for line index
    [k] from the mapper's frequency, amplitude and complexity, with noise
    from draws [1000 k .. 1000 k + 999] after the current state: a frame
    consumes exactly 1000 draws per line and no two lines share a draw. *)
Theorem update_line_curves :
  forall (sin : Q -> Q) (cmap : Q -> Q * Q * Q * Q) (format_1f : Q -> string)
         (v : WeatherDataVisualizer) (frame : Z) (rs : np.RandomState),
    data v <> [] ->
    Forall (fun r => 0 <= wind_speed r) (data v) ->
    exists (idx : Z) (f a c : Q) (v' : WeatherDataVisualizer),
      process_data (data v) frame = Ok (idx, f, a, c)
      /\ update sin cmap format_1f v frame rs
         = (Ok v',
            np.mkRandomState (np.gauss rs)
                             (np.drawn rs + 1000 * length (lines v)))
      /\ length (lines v') = length (lines v)
      /\ (forall k : nat,
            (k < length (lines v))%nat ->
            exists line : Line2D, nth_error (lines v') k = Some line)
      /\ forall (k : nat) (line : Line2D),
           nth_error (lines v') k = Some line ->
           xdata line = map sample_point (seq 0 1000)
           /\ ydata line
              = map (fun j =>
                       waveform_value sin f a (Z.of_nat k) (Qfloor c)
                                      (sample_point j)
                       + (0 + 0.05 * c
                              * np.gauss rs (np.drawn rs + (1000 * k + j))))
                    (seq 0 1000).
Proof.
  intros sin cmap format_1f v frame rs Hne Hwind.
  set (r0 := mkReading EmptyString 0 0 0).
  destruct (Frame.update_full sin cmap format_1f v frame rs r0 (conj Hne Hwind))
    as (ls' & Heq & Hlines).
  destruct (Renderer.update_eq sin cmap format_1f v frame rs r0 (conj Hne Hwind))
    as (v2 & rs2 & Heq2 & _ & Hlen & _).
  cbv zeta in Heq. rewrite Heq in Heq2.
  apply (f_equal fst) in Heq2. cbn [fst] in Heq2.
  assert (Hv : lines v2 = ls').
  { assert (E : forall x y : WeatherDataVisualizer,
               Ok x = Ok y -> lines x = lines y) by (intros x y E; now injection E as ->).
    symmetry. exact (E _ _ Heq2). }
  rewrite Hv in Hlen.
  do 5 eexists.
  split; [apply (Mapper.process_data_eq (data v) frame r0 Hne)|].
  split; [exact Heq|].
  cbn [lines].
  split; [exact Hlen|].
  split; [|exact Hlines].
  intros k Hk.
  destruct (nth_error ls' k) as [line|] eqn:E; [now exists line|].
  apply nth_error_None in E. lia.
Qed.

Lemma update_line_curves_witness :
  data example_visualizer <> []
  /\ Forall (fun r => 0 <= wind_speed r) (data example_visualizer)
  /\ exists v' : WeatherDataVisualizer,
       update sin_taylor (fun t => (t, t, t, 1)) (fun _ => EmptyString)
              example_visualizer 7 example_state
       = (Ok v',
          np.mkRandomState (np.gauss example_state)
            (np.drawn example_state + 1000 * length (lines example_visualizer)))
       /\ length (lines v') = length (lines example_visualizer).
Proof.
  assert (H1 : data example_visualizer <> []) by discriminate.
  assert (H2 : Forall (fun r => 0 <= wind_speed r) (data example_visualizer))
    by (repeat constructor; unfold Qle; simpl; lia).
  split; [exact H1|]. split; [exact H2|].
  destruct (update_line_curves sin_taylor (fun t => (t, t, t, 1))
              (fun _ => EmptyString) example_visualizer 7%Z example_state H1 H2)
    as (idx & f & a & c & v' & _ & Heq & Hlen & _).
  exists v'. split; [exact Heq | exact Hlen].
Defined.

(** X11.  [update] never reads what the previous frame left behind: its
    result depends on the data, the number of lines, the frame counter and
    the generator state only, not on the lines' old contents or the old
    overlay texts. *)
Theorem update_ignores_previous_frame :
  forall (sin : Q -> Q) (cmap : Q -> Q * Q * Q * Q) (format_1f : Q -> string)
         (v1 v2 : WeatherDataVisualizer) (frame : Z) (rs : np.RandomState),
    data v1 = data v2 ->
    length (lines v1) = length (lines v2) ->
    update sin cmap format_1f v1 frame rs
    = update sin cmap format_1f v2 frame rs.
Proof.
  intros sin cmap format_1f v1 v2 frame rs Hd Hl.
  unfold update. rewrite Hd, Hl.
  apply Frame.bind_ext. intros [[[idx f] a] c] rs1.
  unfold bind.
  rewrite (Frame.update_lines_length_only sin cmap (data v2) idx f a c
             (length (lines v2)) (lines v1) (lines v2) 0%Z rs1 Hl).
  reflexivity.
Qed.

Lemma update_ignores_previous_frame_witness :
  data example_visualizer = data example_visualizer
  /\ length (lines example_visualizer)
     = length (List.repeat (mkLine2D [1] [2] CycleColor 1) 5)
  /\ update sin_taylor (fun t => (t, t, t, 1)) (fun _ => EmptyString)
            example_visualizer 7 example_state
     = update sin_taylor (fun t => (t, t, t, 1)) (fun _ => EmptyString)
              (mkVisualizer example_data
                 (List.repeat (mkLine2D [1] [2] CycleColor 1) 5)
                 (DateText "old") EmptyText)
              7 example_state.
Proof.
  split; [reflexivity|]. split; [reflexivity|].
  exact (update_ignores_previous_frame sin_taylor (fun t => (t, t, t, 1))
           (fun _ => EmptyString) example_visualizer
           (mkVisualizer example_data
              (List.repeat (mkLine2D [1] [2] CycleColor 1) 5)
              (DateText "old") EmptyText)
           7%Z example_state eq_refl eq_refl).
Defined.

(** X12.  On a renderable visualizer [update] keeps the data and sets the
    two overlays from the very reading the frame selects: the date text
    shows its date and the info text its temperature, humidity and wind
    speed, each formatted with one decimal. *)
Theorem update_overlays :
  forall (sin : Q -> Q) (cmap : Q -> Q * Q * Q * Q) (format_1f : Q -> string)
         (v : WeatherDataVisualizer) (frame : Z) (rs : np.RandomState),
    data v <> [] ->
    Forall (fun r => 0 <= wind_speed r) (data v) ->
    exists (r : Reading) (v' : WeatherDataVisualizer) (rs' : np.RandomState),
      nth_error (data v) (Z.to_nat (frame mod Z.of_nat (length (data v))))
      = Some r
      /\ update sin cmap format_1f v frame rs = (Ok v', rs')
      /\ data v' = data v
      /\ date_text v' = DateText (date r)
      /\ info_text v'
         = InfoText (format_1f (temperature r)) (format_1f (humidity r))
                    (format_1f (wind_speed r)).
Proof.
  intros sin cmap format_1f v frame rs Hne Hwind.
  set (r0 := mkReading EmptyString 0 0 0).
  pose proof (Mapper.mod_length_range (data v) frame Hne) as Hidx.
  destruct (Frame.update_full sin cmap format_1f v frame rs r0 (conj Hne Hwind))
    as (ls' & Heq & _).
  do 3 eexists.
  split; [apply nth_error_nth'; lia|].
  split; [exact Heq|].
  repeat split; reflexivity.
Qed.

Lemma update_overlays_witness :
  data example_visualizer <> []
  /\ Forall (fun r => 0 <= wind_speed r) (data example_visualizer)
  /\ exists (r : Reading) (v' : WeatherDataVisualizer),
       nth_error example_data 1 = Some r
       /\ fst (update sin_taylor (fun t => (t, t, t, 1)) (fun _ => EmptyString)
                      example_visualizer 7 example_state) = Ok v'
       /\ date_text v' = DateText (date r).
Proof.
  assert (H1 : data example_visualizer <> []) by discriminate.
  assert (H2 : Forall (fun r => 0 <= wind_speed r) (data example_visualizer))
    by (repeat constructor; unfold Qle; simpl; lia).
  split; [exact H1|]. split; [exact H2|].
  destruct (update_overlays sin_taylor (fun t => (t, t, t, 1))
              (fun _ => EmptyString) example_visualizer 7%Z example_state H1 H2)
    as (r & v' & rs' & Hr & Heq & _ & Hd & _).
  exists r, v'. split; [exact Hr|]. split; [now rewrite Heq | exact Hd].
Defined.

(** X13.  Whatever the number of lines, the alphas [update] sets are valid
    opacities that fade in along the lines: every alpha lies in
    [[0.5, 1)], and a later line has a strictly larger alpha. *)
Theorem update_alpha_range :
  forall (sin : Q -> Q) (cmap : Q -> Q * Q * Q * Q) (format_1f : Q -> string)
         (v : WeatherDataVisualizer) (frame : Z) (rs : np.RandomState),
    data v <> [] ->
    Forall (fun r => 0 <= wind_speed r) (data v) ->
    exists (v' : WeatherDataVisualizer) (rs' : np.RandomState),
      update sin cmap format_1f v frame rs = (Ok v', rs')
      /\ (forall (k : nat) (line : Line2D),
            nth_error (lines v') k = Some line ->
            0.5 <= line_alpha line /\ line_alpha line < 1)
      /\ (forall (k1 k2 : nat) (line1 line2 : Line2D),
            nth_error (lines v') k1 = Some line1 ->
            nth_error (lines v') k2 = Some line2 ->
            (k1 < k2)%nat ->
            line_alpha line1 < line_alpha line2).
Proof.
  intros sin cmap format_1f v frame rs Hne Hwind.
  set (r0 := mkReading EmptyString 0 0 0).
  destruct (Renderer.update_eq sin cmap format_1f v frame rs r0 (conj Hne Hwind))
    as (v' & rs' & Heq & _ & Hlen & Hlines).
  exists v', rs'. split; [exact Heq|].
  set (n := length (lines v)) in *.
  assert (Hpos : forall k line, nth_error (lines v') k = Some line -> (k < n)%nat).
  { intros k line H. rewrite <- Hlen. apply nth_error_Some. congruence. }
  assert (Hq : forall k, (k < n)%nat ->
                 0 <= inject_Z (Z.of_nat k) /\ inject_Z (Z.of_nat k) < inject_Z (Z.of_nat n)).
  { intros k Hk. split.
    - change 0 with (inject_Z 0). rewrite <- Zle_Qle. lia.
    - rewrite <- Zlt_Qlt. lia. }
  split.
  - intros k line H. destruct (Hlines k line H) as [_ Ha]. rewrite Ha.
    destruct (Hq k (Hpos k line H)) as [Hk0 Hkn].
    assert (0 <= inject_Z (Z.of_nat k) / inject_Z (Z.of_nat n))
      by (apply Qle_shift_div_l; lra).
    assert (inject_Z (Z.of_nat k) / inject_Z (Z.of_nat n) < 1)
      by (apply Qlt_shift_div_r; lra).
    split; lra.
  - intros k1 k2 line1 line2 H1 H2 Hlt.
    destruct (Hlines k1 line1 H1) as [_ Ha1].
    destruct (Hlines k2 line2 H2) as [_ Ha2]. rewrite Ha1, Ha2.
    destruct (Hq k2 (Hpos k2 line2 H2)) as [_ Hk2n].
    assert (Hk12 : inject_Z (Z.of_nat k1) < inject_Z (Z.of_nat k2))
      by (rewrite <- Zlt_Qlt; lia).
    assert (Hn : 0 < inject_Z (Z.of_nat n)).
    { destruct (Hq k1 (Hpos k1 line1 H1)). lra. }
    set (N := inject_Z (Z.of_nat n)) in *.
    assert (inject_Z (Z.of_nat k1) / N < inject_Z (Z.of_nat k2) / N).
    { apply Qlt_shift_div_l; [exact Hn|].
      assert (E : inject_Z (Z.of_nat k1) / N * N == inject_Z (Z.of_nat k1))
        by (field; lra).
      rewrite E. exact Hk12. }
    lra.
Qed.

Lemma update_alpha_range_witness :
  data example_visualizer <> []
  /\ Forall (fun r => 0 <= wind_speed r) (data example_visualizer)
  /\ exists (v' : WeatherDataVisualizer),
       fst (update sin_taylor (fun t => (t, t, t, 1)) (fun _ => EmptyString)
                   example_visualizer 7 example_state) = Ok v'
       /\ forall (k : nat) (line : Line2D),
            nth_error (lines v') k = Some line ->
            0.5 <= line_alpha line /\ line_alpha line < 1.
Proof.
  assert (H1 : data example_visualizer <> []) by discriminate.
  assert (H2 : Forall (fun r => 0 <= wind_speed r) (data example_visualizer))
    by (repeat constructor; unfold Qle; simpl; lia).
  split; [exact H1|]. split; [exact H2|].
  destruct (update_alpha_range sin_taylor (fun t => (t, t, t, 1))
              (fun _ => EmptyString) example_visualizer 7%Z example_state H1 H2)
    as (v' & rs' & Heq & Ha & _).
  exists v'. split; [now rewrite Heq | exact Ha].
Defined.

(** X14.  The two ways [update] can fail, both before any line or overlay
    is replaced and without consuming a draw: on an empty data frame it
    raises [ZeroDivisionError]; and when there is at least one line and the
    selected reading has a wind speed below -5, so that the complexity is
    negative, it raises [ValueError]. *)
Theorem update_failures :
  forall (sin : Q -> Q) (cmap : Q -> Q * Q * Q * Q) (format_1f : Q -> string)
         (v : WeatherDataVisualizer) (frame : Z) (rs : np.RandomState),
    (data v = [] ->
     update sin cmap format_1f v frame rs = (Raise ZeroDivisionError, rs))
    /\ (forall r : Reading,
          nth_error (data v) (Z.to_nat (frame mod Z.of_nat (length (data v))))
          = Some r ->
          lines v <> [] ->
          wind_speed r < - (5) ->
          update sin cmap format_1f v frame rs = (Raise ValueError, rs)).
Proof.
  intros sin cmap format_1f v frame rs. split.
  - intros H. unfold update, bind, lift. rewrite H. reflexivity.
  - intros r Hr Hl Hw.
    assert (Hne : data v <> []).
    { intros E. rewrite E in Hr. destruct (Z.to_nat _); discriminate Hr. }
    unfold update, bind, lift.
    rewrite (Mapper.process_data_eq (data v) frame r Hne).
    rewrite (nth_error_nth _ _ r Hr).
    destruct (lines v) as [|line0 rest]; [congruence|].
    cbn [update_lines]. unfold bind.
    rewrite Waveform.generate_waveform_negative; [reflexivity|].
    assert (wind_speed r / 5 < - (1)) by (apply Qlt_shift_div_r; lra).
    lra.
Qed.

Lemma update_failures_witness :
  data empty_visualizer = []
  /\ update sin_taylor (fun t => (t, t, t, 1)) (fun _ => EmptyString)
            empty_visualizer 7 example_state
     = (Raise ZeroDivisionError, example_state)
  /\ lines backwards_wind <> []
  /\ - (10) < - (5)
  /\ update sin_taylor (fun t => (t, t, t, 1)) (fun _ => EmptyString)
            backwards_wind 7 example_state
     = (Raise ValueError, example_state).
Proof.
  assert (H1 : lines backwards_wind <> []) by discriminate.
  assert (H2 : - (10) < - (5)) by reflexivity.
  split; [reflexivity|].
  split; [exact (proj1 (update_failures sin_taylor (fun t => (t, t, t, 1))
                          (fun _ => EmptyString) empty_visualizer 7%Z
                          example_state) eq_refl)|].
  split; [exact H1|]. split; [exact H2|].
  exact (proj2 (update_failures sin_taylor (fun t => (t, t, t, 1))
                  (fun _ => EmptyString) backwards_wind 7%Z example_state)
           (mkReading "2024-01-01" 20 60 (- (10))) eq_refl H1 H2).
Defined.

(** ** The animation *)

(** X15.  The animation built for the initialised visualizer has sixty
    frames, 300 ms apart, and repeats; over its frame counters 0 .. 59 the
    mapper selects every reading index exactly twice, at frames [idx] and
    [idx + 30]: one pass plays the data cycle twice. *)
Theorem animation_plays_cycle_twice :
  forall (sin : Q -> Q) (strftime : Z -> string) (now : Z -> Z)
         (rs : np.RandomState),
  exists (v : WeatherDataVisualizer) (rs' : np.RandomState),
    init sin strftime now rs = (Ok v, rs')
    /\ create_animation v = mkFuncAnimation 60 300 true
    /\ forall idx : Z,
         (0 <= idx < 30)%Z ->
         filter (fun frame =>
                   match process_data (data v) frame with
                   | Ok (i, _, _, _) => (i =? idx)%Z
                   | Raise _ => false
                   end)
                (py_range 0 (Z.of_nat (frames (create_animation v))))
         = [idx; (idx + 30)%Z].
Proof.
  intros sin strftime now rs.
  eexists _, _. split; [apply Renderer.init_eq|].
  set (d := map (sample_row sin strftime now rs) (seq 0 30)).
  assert (Hlen : length d = 30%nat) by apply generated_length.
  assert (Hne : d <> []) by (intros E; rewrite E in Hlen; discriminate).
  assert (Hani : create_animation
                   (mkVisualizer d (List.repeat (mkLine2D [] [] CycleColor 0.7) 5)
                                 EmptyText EmptyText)
                 = mkFuncAnimation 60 300 true).
  { unfold create_animation. cbn [data]. now rewrite Hlen. }
  split; [exact Hani|].
  intros idx Hidx. rewrite Hani. cbn [frames data].
  rewrite (filter_ext _ (fun frame => (frame mod 30 =? idx)%Z)).
  - assert (Hk : exists k : nat, (k < 30)%nat /\ idx = Z.of_nat k)
      by (exists (Z.to_nat idx); lia).
    destruct Hk as (k & Hk & ->).
    do 30 (destruct k as [|k]; [vm_compute; reflexivity|]).
    lia.
  - intros frame.
    rewrite (Mapper.process_data_eq d frame (mkReading EmptyString 0 0 0) Hne).
    now rewrite Hlen.
Qed.

(** ** [main] *)

(** Closes a goal [In ev tr -> _] or [~ In ev tr] on an explicit trace [tr]
    that does not hold [ev]. *)
Ltac absent :=
  cbn; intros Hin;
  repeat (destruct Hin as [Hin|Hin]; [discriminate Hin|]);
  destruct Hin.

(** X16.  Whatever the encoders do, [main] starts the MP4 encoder exactly
    once and the GIF encoder at most once; it either returns normally with
    the display as its last action, or re-raises an exception that is not
    an instance of [Exception] and was raised by an encoder, and then the
    animation is never shown.  No [Exception] of an encoder escapes. *)
Theorem main_outcomes :
  forall (sin : Q -> Q) (strftime : Z -> string)
         (encoder : writer -> option exn) (now : Z -> Z)
         (rs : np.RandomState),
    attempts ffmpeg (snd (main sin strftime encoder now rs [])) = 1%nat
    /\ (attempts pillow (snd (main sin strftime encoder now rs [])) <= 1)%nat
    /\ ((fst (main sin strftime encoder now rs []) = Ok tt
         /\ last (snd (main sin strftime encoder now rs [])) Makedirs = Show)
        \/ (exists e : exn,
              fst (main sin strftime encoder now rs []) = Raise e
              /\ is_Exception e = false
              /\ (encoder ffmpeg = Some e \/ encoder pillow = Some e)
              /\ ~ In Show (snd (main sin strftime encoder now rs [])))).
Proof.
  intros sin strftime encoder now rs.
  destruct (encoder ffmpeg) as [e|] eqn:H.
  - destruct (is_Exception e) eqn:He.
    + destruct (encoder pillow) as [e2|] eqn:Hp.
      * destruct (is_Exception e2) eqn:He2.
        -- rewrite (MainRun.main_both_fail sin strftime encoder now rs e e2
                      H He Hp He2).
           split; [reflexivity|]. split; [cbn; lia|]. left. split; reflexivity.
        -- rewrite (MainRun.main_gif_interrupted sin strftime encoder now rs
                      e e2 H He Hp He2).
           split; [reflexivity|]. split; [cbn; lia|]. right.
           exists e2. split; [reflexivity|]. split; [exact He2|].
           split; [now right|].
           cbn. intros Hin.
           repeat (destruct Hin as [Hin|Hin]; [discriminate Hin|]). exact Hin.
      * rewrite (MainRun.main_gif_ok sin strftime encoder now rs e H He Hp).
        split; [reflexivity|]. split; [cbn; lia|]. left. split; reflexivity.
    + rewrite (MainRun.main_mp4_interrupted sin strftime encoder now rs e H He).
      split; [reflexivity|]. split; [cbn; lia|]. right.
      exists e. split; [reflexivity|]. split; [exact He|].
      split; [now left|].
      cbn. intros Hin.
      repeat (destruct Hin as [Hin|Hin]; [discriminate Hin|]). exact Hin.
  - rewrite (MainRun.main_mp4_ok sin strftime encoder now rs H).
    split; [reflexivity|]. split; [cbn; lia|]. left. split; reflexivity.
Qed.

(** X17.  When the MP4 encoder raises an exception that is not an instance
    of [Exception] (a [KeyboardInterrupt], a [SystemExit]), [main]
    re-raises it at once: the GIF encoder is not started, nothing more is
    printed and the animation is not shown. *)
Theorem main_interrupt_skips_fallback :
  forall (sin : Q -> Q) (strftime : Z -> string)
         (encoder : writer -> option exn) (now : Z -> Z)
         (rs : np.RandomState) (e : exn),
    encoder ffmpeg = Some e ->
    is_Exception e = false ->
    main sin strftime encoder now rs []
    = (Raise e,
       [Makedirs; Print GeneratingData; Print CreatingAnimation;
        Print SavingMP4; Save ffmpeg])
    /\ attempts pillow (snd (main sin strftime encoder now rs [])) = 0%nat.
Proof.
  intros sin strftime encoder now rs e H He.
  rewrite (MainRun.main_mp4_interrupted sin strftime encoder now rs e H He).
  split; reflexivity.
Qed.

Lemma main_interrupt_skips_fallback_witness :
  interrupted ffmpeg = Some KeyboardInterrupt
  /\ is_Exception KeyboardInterrupt = false
  /\ main sin_taylor (fun _ => EmptyString) interrupted example_clock
          example_state []
     = (Raise KeyboardInterrupt,
        [Makedirs; Print GeneratingData; Print CreatingAnimation;
         Print SavingMP4; Save ffmpeg]).
Proof.
  split; [reflexivity|]. split; [reflexivity|].
  exact (proj1 (main_interrupt_skips_fallback sin_taylor (fun _ => EmptyString)
                  interrupted example_clock example_state KeyboardInterrupt
                  eq_refl eq_refl)).
Defined.

(** X18.  [main] reports a success only for an encoder that returned
    normally: the MP4 success line is printed exactly when the MP4 encoder
    raised nothing, and the GIF success line exactly when the MP4 encoder
    raised an [Exception] and the GIF encoder raised nothing. *)
Theorem main_success_messages :
  forall (sin : Q -> Q) (strftime : Z -> string)
         (encoder : writer -> option exn) (now : Z -> Z)
         (rs : np.RandomState),
    (In (Print SavedMP4) (snd (main sin strftime encoder now rs []))
     <-> encoder ffmpeg = None)
    /\ (In (Print SavedGIF) (snd (main sin strftime encoder now rs []))
        <-> (exists e : exn, encoder ffmpeg = Some e /\ is_Exception e = true)
            /\ encoder pillow = None).
Proof.
  intros sin strftime encoder now rs.
  destruct (encoder ffmpeg) as [e|] eqn:H.
  - destruct (is_Exception e) eqn:He.
    + destruct (encoder pillow) as [e2|] eqn:Hp.
      * assert (Htr : ~ In (Print SavedMP4) (snd (main sin strftime encoder now rs []))
                      /\ ~ In (Print SavedGIF) (snd (main sin strftime encoder now rs []))).
        { destruct (is_Exception e2) eqn:He2;
            [rewrite (MainRun.main_both_fail sin strftime encoder now rs e e2
                        H He Hp He2)
            |rewrite (MainRun.main_gif_interrupted sin strftime encoder now rs
                        e e2 H He Hp He2)];
            split; absent. }
        destruct Htr as [Hmp4 Hgif]. split; split.
        -- intros Hin. contradiction.
        -- discriminate.
        -- intros Hin. contradiction.
        -- intros [_ Hn]. discriminate Hn.
      * rewrite (MainRun.main_gif_ok sin strftime encoder now rs e H He Hp).
        split; split.
        -- absent.
        -- discriminate.
        -- intros _. split; [exists e; auto | reflexivity].
        -- intros _. cbn. tauto.
    + rewrite (MainRun.main_mp4_interrupted sin strftime encoder now rs e H He).
      split; split.
      * absent.
      * discriminate.
      * absent.
      * intros [(e' & E & He') _]. injection E as <-. congruence.
  - rewrite (MainRun.main_mp4_ok sin strftime encoder now rs H).
    split; split.
    + reflexivity.
    + intros _. cbn. tauto.
    + absent.
    + intros [(e' & E & _) _]. discriminate E.
Qed.

(** ** Ranges of the generated readings *)

Module GeneratedRanges.

Lemma example_state_bounded (k : nat) :
  Qabs (np.gauss example_state k) <= 3 # 2.
Proof.
  apply Qabs_Qle_condition. cbn [np.gauss example_state].
  pose proof (Nat.mod_upper_bound k 7).
  unfold Qle; cbn [Qnum Qden Qopp]. split; lia.
Qed.

End GeneratedRanges.

(** X19.  With a sine bounded by one and noise draws bounded by [B], every
    generated reading has its temperature in [[15 - B, 25 + B]], its
    humidity in [[45 - 3 B, 75 + 3 B]] and its wind speed in
    [[0, 8 + B]]: the sinusoidal bases span 20 +- 5, 60 +- 15 and 5 +- 3,
    and the noise scales are 1, 3 and 1. *)
Theorem generated_ranges :
  forall (sin : Q -> Q) (strftime : Z -> string) (now : Z -> Z)
         (rs : np.RandomState) (B : Q),
    (forall x, Qabs (sin x) <= 1) ->
    (forall k, Qabs (np.gauss rs k) <= B) ->
    exists (d : DataFrame) (rs' : np.RandomState),
      generate_sample_data sin strftime now rs = (Ok d, rs')
      /\ Forall (fun r =>
                   (15 - B <= temperature r /\ temperature r <= 25 + B)
                   /\ (45 - 3 * B <= humidity r /\ humidity r <= 75 + 3 * B)
                   /\ (0 <= wind_speed r /\ wind_speed r <= 8 + B)) d.
Proof.
  intros sin strftime now rs B Hsin Hg.
  eexists _, _. split; [apply Generator.generate_sample_data_eq|].
  apply Forall_forall. intros r Hin.
  apply in_map_iff in Hin. destruct Hin as (k & <- & _).
  cbn [sample_row temperature humidity wind_speed].
  pose proof (proj1 (Qabs_Qle_condition _ _) (Hsin (day_angle k))) as [S1 S2].
  pose proof (proj1 (Qabs_Qle_condition _ _) (Hsin (day_angle k + 0.5))) as [S3 S4].
  pose proof (proj1 (Qabs_Qle_condition _ _) (Hsin (day_angle k + 1))) as [S5 S6].
  pose proof (proj1 (Qabs_Qle_condition _ _) (Hg (np.drawn rs + k)%nat)) as [G1 G2].
  pose proof (proj1 (Qabs_Qle_condition _ _) (Hg (np.drawn rs + 30 + k)%nat))
    as [G3 G4].
  pose proof (proj1 (Qabs_Qle_condition _ _) (Hg (np.drawn rs + 30 + 30 + k)%nat))
    as [G5 G6].
  split; [split; lra|]. split; [split; lra|].
  split; [apply Qabs_nonneg|].
  apply Qabs_Qle_condition. split; lra.
Qed.

Lemma generated_ranges_witness :
  (forall x, Qabs (sin_clamped x) <= 1)
  /\ (forall k, Qabs (np.gauss example_state k) <= 3 # 2)
  /\ exists (d : DataFrame) (rs' : np.RandomState),
       generate_sample_data sin_clamped (fun _ => EmptyString) example_clock
                            example_state = (Ok d, rs')
       /\ Forall (fun r =>
                    (15 - (3 # 2) <= temperature r /\ temperature r <= 25 + (3 # 2))
                    /\ (45 - 3 * (3 # 2) <= humidity r
                        /\ humidity r <= 75 + 3 * (3 # 2))
                    /\ (0 <= wind_speed r /\ wind_speed r <= 8 + (3 # 2))) d.
Proof.
  split; [exact Envelope.sin_clamped_bounded|].
  split; [exact GeneratedRanges.example_state_bounded|].
  exact (generated_ranges sin_clamped (fun _ => EmptyString) example_clock
           example_state (3 # 2) Envelope.sin_clamped_bounded
           GeneratedRanges.example_state_bounded).
Defined.

(** ** Bounded frequency and amplitude *)

Module BoundedParameters.



End BoundedParameters.


